(** * State reconciliation in the NetApp Ansible modules

    A shallow embedding of two modules of the collection,
    [azure_rm_netapp_volume] (Azure NetApp Files volumes) and
    [na_ontap_igroup] (ONTAP initiator groups), and the properties of their
    present/absent reconciliation: action selection, rename, check mode,
    initiator list updates and the exit path.

    Module code runs in a small state-and-exit monad: the state holds the
    remote system (behind the client interface the module calls), the
    helper's [changed] flag and the log of calls sent to the remote system;
    [exit_json], [fail_json] and an uncaught exception end the run. *)

From Stdlib Require Import ZArith String List Ascii Lia Permutation.
From stdpp Require Import base option list gmap strings.

Open Scope string_scope.

(** ** Python values held in parameter and attribute dicts *)

Inductive pyval :=
| PStr (s : string)
| PBool (b : bool)
| PInt (n : Z)
| PList (l : list string).

#[global] Instance pyval_eq_dec : EqDecision pyval.
Proof. solve_decision. Defined.

Abbreviation dict := (gmap string pyval).

(** [d[k] = v] when [v is not None], as the dicts of options are built. *)
Definition set_opt (k : string) (v : option pyval) (d : dict) : dict :=
  match v with
  | Some x => <[k := x]> d
  | None => d
  end.

(** ['%s' % v] for a value that is a [str] or [None]. *)
Definition fmt_s (v : option string) : string :=
  match v with
  | Some s => s
  | None => "None"
  end.

(** [str.lower()] and [str.strip()] on ASCII text. *)
Definition lower_ascii (c : ascii) : ascii :=
  let n := nat_of_ascii c in
  if (65 <=? n)%nat && (n <=? 90)%nat then ascii_of_nat (n + 32) else c.

Fixpoint lower (s : string) : string :=
  match s with
  | EmptyString => EmptyString
  | String c s' => String (lower_ascii c) (lower s')
  end.

(** The result of [get_cd_action]: ['create'], ['delete'] or [None]. *)
Inductive cd_action := Create | Delete.

#[global] Instance cd_action_eq_dec : EqDecision cd_action.
Proof. solve_decision. Defined.

(** The [state] option: [choices=['present', 'absent']]. *)
Inductive state_t := present | absent.

#[global] Instance state_eq_dec : EqDecision state_t.
Proof. solve_decision. Defined.

Definition state_str (s : state_t) : string :=
  match s with
  | present => "present"
  | absent => "absent"
  end.

(** ** The helper classes of [plugins/module_utils]

    [NetAppModule] (the modules' [na_helper]) and [rest_response_helpers]
    are used by both modules but are not part of the sources at hand.  The
    modules are embedded over this interface; the helper's [changed]
    attribute is threaded through each method as a flag. *)

Record rest_record := RestRecord {
  r_name : option string;
  r_uuid : option string;
  r_svm_name : option string;
  r_os_type : option string;
  r_protocol : option string;
  r_initiators : option (list (option string));
}.

Record rest_response := RestResponse {
  num_records : Z;
  records : list rest_record;
}.

Module Utils.
Record ModuleUtils := {
get_cd_action : forall A : Type, option A -> dict -> bool -> option cd_action * bool;
get_modified_attributes : option dict -> dict -> bool -> dict * bool;
is_rename_action : forall A B : Type, option A -> option B -> bool -> option bool * bool;
sanitize_wwn : string -> string;
check_for_0_or_1_records :
  option rest_response -> option string -> option rest_record * option string;
}.
End Utils.
Export Utils (ModuleUtils).

(** ** The monad of module code *)

Module Py.
Section Run.
Context {W C X : Type}.

Record mstate := MState {
  world : W;
  changed : bool;
  calls : list C;
}.

Inductive step (A : Type) :=
| Ret (a : A)
| Halt (x : X).
Arguments Ret {A} a.
Arguments Halt {A} x.

Definition M (A : Type) := mstate -> step A * mstate.

Definition ret {A} (a : A) : M A := fun s => (Ret a, s).

Definition bind {A B} (m : M A) (k : A -> M B) : M B :=
  fun s =>
    match m s with
    | (Ret a, s') => k a s'
    | (Halt x, s') => (Halt x, s')
    end.

Definition halt {A} (x : X) : M A := fun s => (Halt x, s).

Definition get_changed : M bool := fun s => (Ret (changed s), s).

(** A helper method that reads and sets [na_helper.changed]. *)
Definition helper {A} (f : bool -> A * bool) : M A :=
  fun s =>
    let '(a, c) := f (changed s) in
    (Ret a, MState (world s) c (calls s)).

(** A call to the remote system: logged, then answered by the client. *)
Definition invoke {R} (c : C) (srv : W -> W * R) : M R :=
  fun s =>
    let '(w, r) := srv (world s) in
    (Ret r, MState w (changed s) (calls s ++ [c])%list).

(** [for x in l: body(x)] *)
Fixpoint for_each {A} (l : list A) (body : A -> M unit) : M unit :=
  match l with
  | [] => ret tt
  | x :: l' => bind (body x) (fun _ => for_each l' body)
  end.
End Run.
Arguments Ret {X A} a.
Arguments Halt {X A} x.
Arguments mstate : clear implicits.
Arguments M : clear implicits.
End Py.

Declare Scope py_scope.
Delimit Scope py_scope with py.
Notation "x <- m ;; k" := (Py.bind m (fun x => k))
  (at level 100, m at next level, right associativity) : py_scope.
Notation "m ;;; k" := (Py.bind m (fun _ => k))
  (at level 100, right associativity) : py_scope.

(** ** [azure_rm_netapp_volume] *)

Module Azure.

(** The module's options ([module_arg_spec]); an option left out is [None]. *)
Record params := Params {
  resource_group : string;
  name : string;
  file_path : option string;
  pool_name : string;
  account_name : string;
  location : option string;
  state : state_t;
  subnet_name : option string;
  virtual_network : option string;
  size : option Z;
  vnet_resource_group_for_subnet : option string;
  service_level : option string;
  protocol_types : option (list string);
}.

(** [self.parameters]: the options that are not [None], as a dict. *)
Definition parameters (p : params) : dict :=
  set_opt "protocol_types" (PList <$> protocol_types p)
  (set_opt "service_level" (PStr <$> service_level p)
  (set_opt "vnet_resource_group_for_subnet" (PStr <$> vnet_resource_group_for_subnet p)
  (set_opt "size" (PInt <$> size p)
  (set_opt "virtual_network" (PStr <$> virtual_network p)
  (set_opt "subnet_name" (PStr <$> subnet_name p)
  (set_opt "location" (PStr <$> location p)
  (set_opt "file_path" (PStr <$> file_path p)
  (<["state" := PStr (state_str (state p))]>
  (<["account_name" := PStr (account_name p)]>
  (<["pool_name" := PStr (pool_name p)]>
  (<["name" := PStr (name p)]>
  (<["resource_group" := PStr (resource_group p)]> ∅)))))))))))).

Definition ONE_GIB : Z := 1073741824.

(** What the module reads of the SDK's [Volume] object. *)
Record mount_target := MountTarget { ip_address : option string }.

Record volume := Volume {
  mount_targets : option (list mount_target);
  creation_token : option string;
  usage_threshold : option Z;
}.

(** The keyword arguments of the [ExportPolicyRule] in the export policy. *)
Record export_policy_rule := ExportPolicyRule {
  rule_index : Z;
  allowed_clients : string;
  unix_read_write : bool;
  cifs : bool;
  nfsv3 : bool;
  nfsv41 : bool;
}.

(** The [Volume(...)] sent by [create_or_update]. *)
Record volume_body := VolumeBody {
  b_location : string;
  b_creation_token : string;
  b_subnet_id : string;
  b_protocol_types : option (list string);
  b_service_level : option string;
  b_usage_threshold : option Z;
  b_export_policy : option (list export_policy_rule);
}.

Inductive sdk_exn :=
| CloudError (msg : string)
| ValidationError (msg : string).

(** The long-running operation returned by the SDK: each element is one
    [result.result(10)], which returns or raises; [done()] holds when the
    list is used up. *)
Definition poller := list (option sdk_exn).

(** The four names that address a volume. *)
Record volume_key := VolumeKey {
  k_resource_group : string;
  k_account_name : string;
  k_pool_name : string;
  k_volume_name : string;
}.

Definition key_of (p : params) : volume_key :=
  VolumeKey (resource_group p) (account_name p) (pool_name p) (name p).

(** [self.netapp_client]: the management client, over a remote system [W]. *)
Record Client (W : Type) := {
  subscription_id : string;
  volumes_get : volume_key -> W -> W * (volume + sdk_exn);
  volumes_create_or_update : volume_body -> volume_key -> W -> W * (poller + sdk_exn);
  volumes_delete : volume_key -> W -> W * (poller + sdk_exn);
}.
Arguments subscription_id {W} _.
Arguments volumes_get {W} _ _ _.
Arguments volumes_create_or_update {W} _ _ _ _.
Arguments volumes_delete {W} _ _ _.

Inductive call :=
| CGet (k : volume_key)
| CCreateOrUpdate (b : volume_body) (k : volume_key)
| CDelete (k : volume_key).

(** A call that asks the remote system to change the volume. *)
Definition mutating (c : call) : bool :=
  match c with
  | CGet _ => false
  | CCreateOrUpdate _ _ | CDelete _ => true
  end.

Inductive py_exn :=
| KeyError (k : string)
| IndexError
| Uncaught (e : sdk_exn).

Inductive failure :=
| ErrLibRequired
| ErrCreating (name account subnet_id : string) (e : sdk_exn)
| ErrDeleting (name account : string) (e : sdk_exn)
| ErrCannotBeFound (name : string)
| ErrNoMountTargets (name : string) (v : volume).

Inductive outcome :=
| ExitJson (changed : bool) (msg : string)
| FailJson (f : failure)
| Raise (e : py_exn).

Definition exn_text (e : sdk_exn) : string :=
  match e with
  | CloudError m | ValidationError m => m
  end.

Section Module.
Context {W : Type}.
Variable U : ModuleUtils.
Variable netapp_client : Client W.
Variable p : params.
Variable check_mode : bool.

Local Open Scope py_scope.
Local Abbreviation M := (Py.M W call outcome).

Definition fail_json {A} (f : failure) : M A := Py.halt (FailJson f).
Definition raise {A} (e : py_exn) : M A := Py.halt (Raise e).

(** [self.parameters[k]] for an option that may have been left out. *)
Definition required {A} (k : string) (v : option A) : M A :=
  match v with
  | Some x => Py.ret x
  | None => raise (KeyError k)
  end.

Definition get_azure_netapp_volume : M (option volume) :=
  r <- Py.invoke (CGet (key_of p)) (volumes_get netapp_client (key_of p)) ;;
  match r with
  | inl volume_get => Py.ret (Some volume_get)
  | inr (CloudError _) => Py.ret None
  | inr e => raise (Uncaught e)
  end.

Definition get_export_policy_rules : option (list export_policy_rule) :=
  match protocol_types p with
  | None => None
  | Some ptypes =>
      let ptypes := map lower ptypes in
      if bool_decide ("nfsv4.1" ∈ ptypes) then
        let ptypes := (ptypes ++ ["nfsv41"])%list in
        Some [ExportPolicyRule 1 "0.0.0.0/0" true
                (bool_decide ("cifs" ∈ ptypes))
                (bool_decide ("nfsv3" ∈ ptypes))
                (bool_decide ("nfsv41" ∈ ptypes))]
      else None
  end.

(** [while result.done() is not True: result.result(10)] *)
Fixpoint wait (result : poller) : option sdk_exn :=
  match result with
  | [] => None
  | Some e :: _ => Some e
  | None :: result' => wait result'
  end.

Definition subnet_id_of (virtual_network subnet_name : string) : string :=
  "/subscriptions/" ++ subscription_id netapp_client ++
  "/resourceGroups/" ++
  match vnet_resource_group_for_subnet p with
  | None => resource_group p
  | Some g => g
  end ++
  "/providers/Microsoft.Network/virtualNetworks/" ++ virtual_network ++
  "/subnets/" ++ subnet_name.

Definition create_azure_netapp_volume : M unit :=
  let rules := get_export_policy_rules in
  virtual_network <- required "virtual_network" (virtual_network p) ;;
  subnet_name <- required "subnet_name" (subnet_name p) ;;
  let subnet_id := subnet_id_of virtual_network subnet_name in
  location <- required "location" (location p) ;;
  file_path <- required "file_path" (file_path p) ;;
  let volume_body :=
    VolumeBody location file_path subnet_id
      (protocol_types p) (service_level p)
      ((fun value => value * ONE_GIB)%Z <$> size p) rules in
  r <- Py.invoke (CCreateOrUpdate volume_body (key_of p))
         (volumes_create_or_update netapp_client volume_body (key_of p)) ;;
  match r with
  | inl result =>
      match wait result with
      | None => Py.ret tt
      | Some e => fail_json (ErrCreating (name p) (account_name p) subnet_id e)
      end
  | inr e => fail_json (ErrCreating (name p) (account_name p) subnet_id e)
  end.

Definition delete_azure_netapp_volume : M unit :=
  r <- Py.invoke (CDelete (key_of p)) (volumes_delete netapp_client (key_of p)) ;;
  match match r with inl result => wait result | inr e => Some e end with
  | None => Py.ret tt
  | Some (CloudError m) => fail_json (ErrDeleting (name p) (account_name p) (CloudError m))
  | Some e => raise (Uncaught e)
  end.

(** The mount path reported for a volume that was read back. *)
Definition mount_path (v : volume) : M string :=
  match mount_targets v with
  | None => fail_json (ErrNoMountTargets (name p) v)
  | Some [] => raise IndexError
  | Some (mt :: _) =>
      Py.ret (fmt_s (ip_address mt) ++ ":/" ++ fmt_s (creation_token v))
  end.

Definition exec_module : M Empty_set :=
  current <- get_azure_netapp_volume ;;
  cd_action <- Py.helper (Utils.get_cd_action U volume current (parameters p)) ;;
  changed <- Py.get_changed ;;
  (if changed then
     if check_mode then Py.ret tt
     else match cd_action with
          | Some Create => create_azure_netapp_volume
          | Some Delete => delete_azure_netapp_volume
          | None => Py.ret tt
          end
   else Py.ret tt) ;;;
  return_info <-
    (if decide (state p = present) then
       return_info <- get_azure_netapp_volume ;;
       match return_info with
       | None => fail_json (ErrCannotBeFound (name p))
       | Some v => mount_path v
       end
     else Py.ret "") ;;
  changed <- Py.get_changed ;;
  Py.halt (ExitJson changed return_info).

(** One run of the module against the remote system [w]: the outcome, the
    remote system afterwards and the calls that were sent. *)
Definition run (w : W) : outcome * W * list call :=
  match exec_module (Py.MState w false []) with
  | (Py.Halt x, s) => (x, Py.world s, Py.calls s)
  | (Py.Ret a, _) => match a with end
  end.
End Module.
End Azure.

(** ** [na_ontap_igroup] *)

Module Igroup.

(** The module's options ([argument_spec]); an option left out is [None]. *)
Record params := Params {
  state : state_t;
  name : string;
  from_name : option string;
  os_type : option string;
  initiator_group_type : option string;
  initiators : option (list string);
  vserver : string;
  force_remove_initiator : bool;
  bind_portset : option string;
}.

(** [self.parameters]: the options that are not [None], as a dict; the
    connection options never name an attribute of an igroup and are left
    out. *)
Definition parameters (p : params) : dict :=
  set_opt "bind_portset" (PStr <$> bind_portset p)
  (<["force_remove_initiator" := PBool (force_remove_initiator p)]>
  (<["vserver" := PStr (vserver p)]>
  (set_opt "initiators" (PList <$> initiators p)
  (set_opt "initiator_group_type" (PStr <$> initiator_group_type p)
  (set_opt "os_type" (PStr <$> os_type p)
  (set_opt "from_name" (PStr <$> from_name p)
  (<["name" := PStr (name p)]>
  (<["state" := PStr (state_str (state p))]> ∅)))))))).

(** [rest_modify_zapi_to_rest]: the options that REST can modify, with
    their REST names. *)
Definition rest_modify_options : list (string * string) :=
  [("bind_portset", "portset"); ("name", "name"); ("os_type", "os_type")].

Definition rest_modify_zapi_to_rest : gmap string string :=
  list_to_map rest_modify_options.

(** netapp-lib's [NaElement], as far as the module reads it: a tag, a text
    content and child elements. *)
Inductive na_element :=
| NaElement (tag : string) (content : option string) (children : list na_element).

Definition get_tag (e : na_element) : string :=
  match e with NaElement t _ _ => t end.
Definition get_content (e : na_element) : option string :=
  match e with NaElement _ c _ => c end.
Definition get_children (e : na_element) : list na_element :=
  match e with NaElement _ _ l => l end.

Definition get_child_by_name (e : na_element) (name : string) : option na_element :=
  List.find (fun c => bool_decide (get_tag c = name)) (get_children e).

Definition get_child_content (e : na_element) (name : string) : option string :=
  match get_child_by_name e name with
  | Some c => get_content c
  | None => None
  end.

(** [int(s)] for a decimal numeral with an optional sign. *)
Definition digit_of (c : ascii) : option Z :=
  let n := nat_of_ascii c in
  if (48 <=? n)%nat && (n <=? 57)%nat then Some (Z.of_nat (n - 48)) else None.

Fixpoint digits (acc : Z) (s : string) : option Z :=
  match s with
  | EmptyString => Some acc
  | String c s' =>
      match digit_of c with
      | Some d => digits (10 * acc + d) s'
      | None => None
      end
  end.

Definition int (s : string) : option Z :=
  match s with
  | EmptyString => None
  | String "-" (String _ _ as s') => Z.opp <$> digits 0 s'
  | String "+" (String _ _ as s') => digits 0 s'
  | _ => digits 0 s
  end.

Inductive zapi_call :=
| ZEmsLogEvent
| ZIgroupGetIter (name vserver : string)
| ZIgroupCreate (name : string) (os_type igroup_type bind_portset : option string)
| ZIgroupDestroy (name : string) (force : bool)
| ZIgroupRename (name new_name : string)
| ZIgroupAdd (name initiator : string)
| ZIgroupRemove (name initiator : string).

(** The body of [POST protocols/san/igroups]. *)
Record create_body := CreateBody {
  cb_name : string;
  cb_os_type : string;
  cb_svm_name : string;
  cb_protocol : option string;
  cb_portset : option string;
  cb_initiators : option (list string);
}.

(** REST calls; [uuid] is the value formatted into the URL. *)
Inductive rest_call :=
| RGetIgroups (name svm_name : string)
| RPostIgroups (body : create_body)
| RPostInitiators (uuid : option pyval) (names : list string)
| RDeleteInitiator (uuid : option pyval) (initiator : string)
| RPatchIgroup (uuid : option pyval) (body : dict)
| RDeleteIgroup (uuid : option pyval) (allow_delete_while_mapped : bool).

Inductive call :=
| Zapi (c : zapi_call)
| Rest (c : rest_call).

(** A call that asks the remote system to create, delete, rename or
    modify an igroup. *)
Definition mutating (c : call) : bool :=
  match c with
  | Zapi ZEmsLogEvent | Zapi (ZIgroupGetIter _ _) | Rest (RGetIgroups _ _) => false
  | _ => true
  end.

(** The connection: [self.rest_api] and [self.server], over a remote
    system [W].  A ZAPI call returns an element or raises [NaApiError]; a
    REST call returns a response and an error. *)
Record Connection (W : Type) := {
  is_rest : bool;
  get_ontap_version : Z * Z * Z;
  HAS_NETAPP_LIB : bool;
  invoke_successfully : zapi_call -> W -> W * (na_element + string);
  rest_get : string -> string -> W -> W * (option rest_response * option string);
  rest_send : rest_call -> W -> W * option string;
}.
Arguments is_rest {W} _.
Arguments get_ontap_version {W} _.
Arguments HAS_NETAPP_LIB {W} _.
Arguments invoke_successfully {W} _ _ _.
Arguments rest_get {W} _ _ _ _.
Arguments rest_send {W} _ _ _.

Inductive py_exn :=
| KeyError (k : string)
| TypeError
| ValueError
| AttributeError (attr : string).

Inductive failure :=
| ErrLibRequired
| ErrRest (error : string)
| ErrUnexpectedBody (igroup : rest_record)
| ErrFetching (name error : string)
| ErrModifyingInitiator (name error : string)
| ErrProvisioning (name error : string)
| ErrDeleting (name error : string)
| ErrRenaming (name error : string)
| ErrInternalRename
| ErrModifyNotSupported (modify : dict) (context : string)
| ErrModifyingInRest (option : string)
| ErrFromNameNotFound (from_name : option string)
| ErrOsTypeRequired.

Inductive outcome :=
| ExitJson (changed : bool) (current modify : option dict)
| FailJson (f : failure)
| Raise (e : py_exn).

(** The truth value of an optional dict and of an optional string. *)
Definition truthy (d : option dict) : bool :=
  match d with
  | Some m => negb (bool_decide (m = ∅))
  | None => false
  end.

Definition nonempty (s : option string) : bool :=
  match s with
  | Some t => negb (bool_decide (t = ""))
  | None => false
  end.




Section Module.
Context {W : Type}.
Variable U : ModuleUtils.
Variable conn : Connection W.
Variable use_rest : bool.
Variable p : params.
Variable check_mode : bool.

Local Open Scope py_scope.
Local Abbreviation M := (Py.M W call outcome).

Definition fail_json {A} (f : failure) : M A := Py.halt (FailJson f).
Definition raise {A} (e : py_exn) : M A := Py.halt (Raise e).

Definition fail_on_error (error : option string) : M unit :=
  match error with
  | None => Py.ret tt
  | Some e => fail_json (ErrRest e)
  end.

(** [self.server.invoke_successfully]; [self.server] is only set when
    ZAPI is used. *)
Definition server_invoke (c : zapi_call) : M (na_element + string) :=
  if use_rest then raise (AttributeError "server")
  else Py.invoke (Zapi c) (invoke_successfully conn c).

(** [self.rest_api.post], [patch] and [delete], which return an error. *)
Definition rest_api_send (c : rest_call) : M (option string) :=
  Py.invoke (Rest c) (rest_send conn c).

Definition get_igroup_rest (name : string) : M (option dict) :=
  r <- Py.invoke (Rest (RGetIgroups name (vserver p))) (rest_get conn name (vserver p)) ;;
  let '(response, error) := r in
  let '(igroup, error) := Utils.check_for_0_or_1_records U response error in
  fail_on_error error ;;;
  match igroup with
  | Some ig =>
      match r_name ig, r_uuid ig, r_svm_name ig, r_os_type ig, r_protocol ig with
      | Some n, Some u, Some v, Some o, Some t =>
          let igroup_details : dict :=
            <["initiator_group_type" := PStr t]>
            (<["os_type" := PStr o]>
            (<["vserver" := PStr v]>
            (<["uuid" := PStr u]>
            (<["name" := PStr n]> ∅)))) in
          match r_initiators ig with
          | Some items =>
              match mapM id items with
              | Some names => Py.ret (Some (<["initiators" := PList names]> igroup_details))
              | None => raise (KeyError "name")
              end
          | None => Py.ret (Some (<["initiators" := PList []]> igroup_details))
          end
      | _, _, _, _, _ => fail_json (ErrUnexpectedBody ig)
      end
  | None => Py.ret None
  end.

(** [initiator['initiator-name']]: the text of the child element. *)
Definition initiator_name (initiator : na_element) : M string :=
  match get_child_by_name initiator "initiator-name" with
  | None => raise (KeyError "initiator-name")
  | Some c =>
      match get_children c, get_content c with
      | [], Some s => Py.ret s
      | _, _ => raise TypeError
      end
  end.

Fixpoint initiator_names (l : list na_element) : M (list string) :=
  match l with
  | [] => Py.ret []
  | initiator :: l' =>
      s <- initiator_name initiator ;;
      names <- initiator_names l' ;;
      Py.ret (s :: names)
  end.

Definition zapi_to_params : list (string * string) :=
  [("vserver", "vserver");
   ("initiator-group-os-type", "os_type");
   ("initiator-group-portset-name", "bind_portset");
   ("initiator-group-type", "initiator_group_type")].

Definition get_igroup (name : string) : M (option dict) :=
  if use_rest then get_igroup_rest name
  else
    r <- server_invoke (ZIgroupGetIter name (vserver p)) ;;
    match r with
    | inr error => fail_json (ErrFetching (Igroup.name p) error)
    | inl result =>
        found <-
          match get_child_by_name result "num-records" with
          | None => Py.ret false
          | Some _ =>
              match get_child_content result "num-records" with
              | None => raise TypeError
              | Some t =>
                  match int t with
                  | None => raise ValueError
                  | Some n => Py.ret (bool_decide (1 <= n)%Z)
                  end
              end
          end ;;
        if found then
          match get_child_by_name result "attributes-list" with
          | None => raise (AttributeError "get_child_by_name")
          | Some igroup_info =>
              match get_child_by_name igroup_info "initiator-group-info" with
              | None => raise (AttributeError "get_child_by_name")
              | Some initiator_group_info =>
                  initiators <-
                    match get_child_by_name initiator_group_info "initiators" with
                    | None => Py.ret []
                    | Some c =>
                        match get_children c with
                        | [] => raise (AttributeError "get_children")
                        | current_initiators => initiator_names current_initiators
                        end
                    end ;;
                  let current : dict := <["initiators" := PList initiators]> ∅ in
                  Py.ret (Some
                    (foldl (fun (current : dict) '(attr, param) =>
                              match get_child_content igroup_info attr with
                              | Some value => <[param := PStr value]> current
                              | None => current
                              end) current zapi_to_params))
              end
          end
        else Py.ret None
    end.

Definition add_initiators_rest (uuid : option pyval) (initiators : list string) : M unit :=
  error <- rest_api_send (RPostInitiators uuid initiators) ;;
  fail_on_error error.

Definition modify_initiator (initiator : string) (add : bool) : M unit :=
  r <- server_invoke
         (if add then ZIgroupAdd (name p) initiator else ZIgroupRemove (name p) initiator) ;;
  match r with
  | inl _ => Py.ret tt
  | inr error => fail_json (ErrModifyingInitiator (name p) error)
  end.

Definition add_initiators (uuid : option pyval) (current_initiators : list string) : M unit :=
  match initiators p with
  | None => Py.ret tt
  | Some desired =>
      if bool_decide (desired = [""]) then Py.ret tt
      else
        let initiators_to_add :=
          filter (fun initiator => initiator ∉ current_initiators) desired in
        if use_rest && bool_decide (is_Some uuid) && negb (bool_decide (initiators_to_add = []))
        then add_initiators_rest uuid initiators_to_add
        else Py.for_each initiators_to_add (fun initiator => modify_initiator initiator true)
  end.

Definition delete_initiator_rest (uuid : option pyval) (initiator : string) : M unit :=
  error <- rest_api_send (RDeleteInitiator uuid initiator) ;;
  fail_on_error error.

Definition remove_initiators (uuid : option pyval) (current_initiators : list string) : M unit :=
  Py.for_each current_initiators (fun initiator =>
    if bool_decide (initiator ∉ default [] (initiators p)) then
      if use_rest then delete_initiator_rest uuid initiator
      else modify_initiator initiator false
    else Py.ret tt).

Definition create_igroup_rest : M unit :=
  match os_type p with
  | None => raise (KeyError "os_type")
  | Some os_type =>
      let body :=
        CreateBody (name p) os_type (vserver p)
          (initiator_group_type p) (bind_portset p) (initiators p) in
      error <- rest_api_send (RPostIgroups body) ;;
      fail_on_error error
  end.

Definition create_igroup : M unit :=
  if use_rest then create_igroup_rest
  else
    r <- server_invoke
           (ZIgroupCreate (name p) (os_type p) (initiator_group_type p) (bind_portset p)) ;;
    match r with
    | inr error => fail_json (ErrProvisioning (name p) error)
    | inl _ => add_initiators None []
    end.

(** The PATCH body: each modified option under its REST name. *)
Definition patch_body (modify : dict) : dict :=
  foldr (fun '(option, key) body => set_opt key (modify !! option) body)
        ∅ rest_modify_options.

Definition modify_igroup_rest (uuid : option pyval) (modify : dict) : M unit :=
  match filter (fun option => rest_modify_zapi_to_rest !! option = None)
               (fst <$> map_to_list modify) with
  | option :: _ => fail_json (ErrModifyingInRest option)
  | [] =>
      let body := patch_body modify in
      if bool_decide (body = ∅) then Py.ret tt
      else
        error <- rest_api_send (RPatchIgroup uuid body) ;;
        fail_on_error error
  end.

Definition delete_igroup_rest (uuid : option pyval) : M unit :=
  error <- rest_api_send (RDeleteIgroup uuid (force_remove_initiator p)) ;;
  fail_on_error error.

Definition delete_igroup (uuid : option pyval) : M unit :=
  if use_rest then delete_igroup_rest uuid
  else
    r <- server_invoke (ZIgroupDestroy (name p) (force_remove_initiator p)) ;;
    match r with
    | inr error => fail_json (ErrDeleting (name p) error)
    | inl _ => Py.ret tt
    end.

Definition rename_igroup : M unit :=
  (if use_rest then fail_json ErrInternalRename else Py.ret tt) ;;;
  match from_name p with
  | None => raise (KeyError "from_name")
  | Some from_name =>
      r <- server_invoke (ZIgroupRename from_name (name p)) ;;
      match r with
      | inr error => fail_json (ErrRenaming (name p) error)
      | inl _ => Py.ret tt
      end
  end.

Definition report_error_in_modify (modify : dict) (context : string) : M unit :=
  if bool_decide (modify = ∅) then Py.ret tt
  else fail_json (ErrModifyNotSupported modify context).

Definition validate_modify (modify : option dict) : M unit :=
  match modify with
  | None => Py.ret tt
  | Some modify =>
      if bool_decide (modify = ∅) then Py.ret tt
      else
        let modify_local := delete "initiators" modify in
        if negb use_rest then report_error_in_modify modify_local "ZAPI"
        else
          let modify_local :=
            filter (fun kv => rest_modify_zapi_to_rest !! kv.1 = None) modify_local in
          report_error_in_modify modify_local "REST"
  end.

(** [netapp_utils.ems_log_event]: an event sent over ZAPI, whose answer
    the module does not look at. *)
Definition autosupport_log : M unit :=
  if negb use_rest then
    _ <- server_invoke ZEmsLogEvent ;; Py.ret tt
  else Py.ret tt.

Definition is_rename_action (action : option cd_action) (current : option dict)
  : M (option cd_action * option bool * option dict)%type :=
  match from_name p with
  | None => raise (KeyError "from_name")
  | Some from_name =>
      old <- get_igroup from_name ;;
      rename <- Py.helper (Utils.is_rename_action U dict dict old current) ;;
      match rename with
      | None => fail_json (ErrFromNameNotFound (Igroup.from_name p))
      | Some true => Py.ret (None, rename, old)
      | Some false => Py.ret (action, rename, current)
      end
  end.

(** [current['initiators']] *)
Definition current_initiators (current : option dict) : M (list string) :=
  match current with
  | None => raise TypeError
  | Some c =>
      match c !! "initiators" with
      | None => raise (KeyError "initiators")
      | Some (PList l) => Py.ret l
      | Some _ => raise TypeError
      end
  end.

Definition apply : M Empty_set :=
  autosupport_log ;;;
  current <- get_igroup (name p) ;;
  cd_action <- Py.helper (Utils.get_cd_action U dict current (parameters p)) ;;
  r <- (if bool_decide (cd_action = Some Create) && nonempty (from_name p)
        then is_rename_action cd_action current
        else Py.ret (cd_action, None, current)) ;;
  let '(cd_action, rename, current) := r in
  r <- (if bool_decide (cd_action = None) && bool_decide (state p = present) then
          modify <- Py.helper (Utils.get_modified_attributes U current (parameters p)) ;;
          if use_rest then Py.ret (Some false, Some modify)
          else Py.ret (rename, Some (delete "name" modify))
        else Py.ret (rename, None)) ;;
  let '(rename, modify) := r in
  uuid <- (if truthy current && use_rest then
             match current ≫= (fun c => c !! "uuid") with
             | Some u => Py.ret (Some u)
             | None => raise (KeyError "uuid")
             end
           else Py.ret None) ;;
  (if bool_decide (cd_action = Some Create) && use_rest && bool_decide (os_type p = None)
   then fail_json ErrOsTypeRequired else Py.ret tt) ;;;
  validate_modify modify ;;;
  changed <- Py.get_changed ;;
  modify <-
    (if changed && negb check_mode then
       (if bool_decide (rename = Some true) then rename_igroup
        else if bool_decide (cd_action = Some Create) then create_igroup
        else if bool_decide (cd_action = Some Delete) then delete_igroup uuid
        else Py.ret tt) ;;;
       if truthy modify then
         initiators <- current_initiators current ;;
         remove_initiators uuid initiators ;;;
         add_initiators uuid initiators ;;;
         let modify := delete "initiators" <$> modify in
         (if truthy modify then modify_igroup_rest uuid (default ∅ modify)
          else Py.ret tt) ;;;
         Py.ret modify
       else Py.ret modify
     else Py.ret modify) ;;
  changed <- Py.get_changed ;;
  Py.halt (ExitJson changed current modify).

(** One run of the module against the remote system [w]: the outcome, the
    remote system afterwards and the calls that were sent. *)
Definition run (w : W) : outcome * W * list call :=
  match apply (Py.MState w false []) with
  | (Py.Halt x, s) => (x, Py.world s, Py.calls s)
  | (Py.Ret a, _) => match a with end
  end.
End Module.

End Igroup.

(** ** The helpers of [module_utils], modelled *)

Module Helper.

(** Whether two values of a field are the same; lists are compared as
    bags, the order in which the remote system lists items being its own. *)
Definition same_value (current desired : pyval) : bool :=
  match current, desired with
  | PList l1, PList l2 => bool_decide (l1 ≡ₚ l2)
  | _, _ => bool_decide (current = desired)
  end.

(** Modelled from the spec: [NetAppModule.get_cd_action] is not among the
    sources.  An absent resource with desired state present gives create,
    a present resource with desired state absent gives delete, anything
    else gives none; a create or delete is recorded in [changed]. *)
Definition get_cd_action (A : Type) (current : option A) (desired : dict)
    (changed : bool) : option cd_action * bool :=
  match current, desired !! "state" with
  | None, Some (PStr "present") => (Some Create, true)
  | Some _, Some (PStr "absent") => (Some Delete, true)
  | _, _ => (None, changed)
  end.

(** Modelled from the spec: [NetAppModule.get_modified_attributes] is not
    among the sources.  For a present resource, the fields found on both
    sides whose values differ, each with its desired value (the old value
    is the one in [current]); a difference is recorded in [changed]. *)
Definition changed_field (current desired : option pyval) : option pyval :=
  match current, desired with
  | Some c, Some d => if same_value c d then None else Some d
  | _, _ => None
  end.

Definition get_modified_attributes (current : option dict) (desired : dict)
    (changed : bool) : dict * bool :=
  match current with
  | None => (∅, changed)
  | Some c =>
      let modified : dict := merge changed_field c desired in
      (modified, if bool_decide (modified = ∅) then changed else true)
  end.

(** Modelled from the spec: [NetAppModule.is_rename_action] is not among
    the sources.  A source that exists with a target that does not is a
    rename, recorded in [changed]; when neither exists there is nothing to
    rename and the answer is [None]; otherwise it is no rename. *)
Definition is_rename_action (A B : Type) (source : option A) (target : option B)
    (changed : bool) : option bool * bool :=
  match source, target with
  | Some _, None => (Some true, true)
  | None, None => (None, changed)
  | _, Some _ => (Some false, changed)
  end.

Definition is_space (c : ascii) : bool :=
  let n := nat_of_ascii c in
  ((9 <=? n)%nat && (n <=? 13)%nat) || (n =? 32)%nat.

Fixpoint lstrip (s : string) : string :=
  match s with
  | EmptyString => EmptyString
  | String c s' => if is_space c then lstrip s' else s
  end.

Definition strip (s : string) : string :=
  String.rev (lstrip (String.rev (lstrip s))).

Definition is_hex (c : ascii) : bool :=
  let n := nat_of_ascii c in
  ((48 <=? n)%nat && (n <=? 57)%nat) ||
  ((65 <=? n)%nat && (n <=? 70)%nat) ||
  ((97 <=? n)%nat && (n <=? 102)%nat).

(** [n] groups of a colon and two hex digits at the start of [s]. *)
Fixpoint wwn_pairs (n : nat) (s : string) : bool :=
  match n with
  | O => true
  | S n' =>
      match s with
      | String ":" (String a (String b s')) => is_hex a && is_hex b && wwn_pairs n' s'
      | _ => false
      end
  end.

Definition wwn_format (s : string) : bool :=
  match s with
  | String a (String b s') => is_hex a && is_hex b && wwn_pairs 7 s'
  | _ => false
  end.

(** Modelled from the spec: [NetAppModule.sanitize_wwn] is not among the
    sources.  Blanks around the initiator are dropped, and an initiator
    that starts in WWN format (eight pairs of hex digits separated by
    colons) is put in lower case. *)
Definition sanitize_wwn (initiator : string) : string :=
  let initiator := strip initiator in
  if wwn_format initiator then lower initiator else initiator.

(** Modelled from the spec: [rest_response_helpers.check_for_0_or_1_records]
    is not among the sources.  An error is passed on; no record is [None]
    without an error; one record is that record; anything else is an
    error. *)
Definition check_for_0_or_1_records (response : option rest_response)
    (error : option string) : option rest_record * option string :=
  match error, response with
  | Some e, _ => (None, Some e)
  | None, None => (None, Some "no response")
  | None, Some r =>
      if bool_decide (num_records r = 0%Z) then (None, None)
      else match bool_decide (num_records r = 1%Z), records r with
           | true, record :: _ => (Some record, None)
           | _, _ => (None, Some "unexpected response")
           end
  end.

Definition utils : ModuleUtils := {|
  Utils.get_cd_action := get_cd_action;
  Utils.get_modified_attributes := get_modified_attributes;
  Utils.is_rename_action := is_rename_action;
  Utils.sanitize_wwn := sanitize_wwn;
  Utils.check_for_0_or_1_records := check_for_0_or_1_records;
|}.
End Helper.

(** ** The remote systems, modelled as stores

    A run talks to a remote system through its client.  These stores stand
    for a system that carries out each call it is sent; they are used to
    follow a run into the state it leaves behind. *)

Module AzureStore.
Import Azure.

#[global] Instance volume_key_eq_dec : EqDecision volume_key.
Proof. solve_decision. Defined.

(** The volumes by key, and the address given to the next new volume. *)
Record world := World {
  volumes : list (volume_key * volume);
  next_ip : string;
}.

Fixpoint lookup_volume (k : volume_key) (l : list (volume_key * volume)) : option volume :=
  match l with
  | [] => None
  | (k', v) :: l' => if decide (k' = k) then Some v else lookup_volume k l'
  end.

Definition remove_volume (k : volume_key) (l : list (volume_key * volume)) :=
  filter (fun kv => kv.1 <> k) l.

Definition get (k : volume_key) (w : world) : world * (volume + sdk_exn) :=
  match lookup_volume k (volumes w) with
  | Some v => (w, inl v)
  | None => (w, inr (CloudError "ResourceNotFound"))
  end.

Definition create_or_update (b : volume_body) (k : volume_key) (w : world)
  : world * (poller + sdk_exn) :=
  let v := Volume (Some [MountTarget (Some (next_ip w))])
             (Some (b_creation_token b)) (b_usage_threshold b) in
  (World ((k, v) :: remove_volume k (volumes w)) (next_ip w ++ "'"), inl [None]).

Definition delete (k : volume_key) (w : world) : world * (poller + sdk_exn) :=
  (World (remove_volume k (volumes w)) (next_ip w), inl []).

Definition client (subscription : string) : Client world := {|
  subscription_id := subscription;
  volumes_get := get;
  volumes_create_or_update := create_or_update;
  volumes_delete := delete;
|}.
End AzureStore.

(** ** Properties of [azure_rm_netapp_volume] *)

Module AzureFacts.
Import Azure.

Definition demo_params (st : state_t) : params :=
  Params "rg" "vol1" (Some "vol1") "pool" "acct" (Some "eastus") st
    (Some "subnet") (Some "vnet") (Some 100%Z) None (Some "Premium") (Some ["NFSv3"]).

Definition demo_world : AzureStore.world := AzureStore.World [] "10.0.0.4".

Definition demo_run (st : state_t) (check_mode : bool) (w : AzureStore.world) :=
  run Helper.utils (AzureStore.client "sub") (demo_params st) check_mode w.

Ltac py_unfold :=
  unfold Py.bind, Py.ret, Py.halt, Py.get_changed, Py.helper, Py.invoke in *;
  cbn [Py.world Py.changed Py.calls fst snd] in *.

Section Facts.
Context {W : Type}.
Variable U : ModuleUtils.
Variable netapp_client : Client W.
Variable p : params.
Variable check_mode : bool.

Local Open Scope py_scope.

(** The reconciliation step of [exec_module]: everything before the
    volume is read back. *)
Definition reconcile : Py.M W call outcome unit :=
  current <- get_azure_netapp_volume netapp_client p ;;
  cd_action <- Py.helper (Utils.get_cd_action U volume current (parameters p)) ;;
  changed <- Py.get_changed ;;
  (if changed then
     if check_mode then Py.ret tt
     else match cd_action with
          | Some Create => create_azure_netapp_volume netapp_client p
          | Some Delete => delete_azure_netapp_volume netapp_client p
          | None => Py.ret tt
          end
   else Py.ret tt).

(** What the exit path reports for the answer of the second read. *)
Definition reported (changed : bool) (answer : volume + sdk_exn) : outcome :=
  match answer with
  | inr (CloudError _) => FailJson (ErrCannotBeFound (name p))
  | inr e => Raise (Uncaught e)
  | inl v =>
      match mount_targets v with
      | None => FailJson (ErrNoMountTargets (name p) v)
      | Some [] => Raise IndexError
      | Some (mt :: _) =>
          ExitJson changed (fmt_s (ip_address mt) ++ ":/" ++ fmt_s (creation_token v))
      end
  end.

Lemma exec_module_reconcile s :
  exec_module U netapp_client p check_mode s =
  match reconcile s with
  | (Py.Halt x, s1) => (Py.Halt x, s1)
  | (Py.Ret _, s1) =>
      if decide (state p = present) then
        let '(w2, answer) := volumes_get netapp_client (key_of p) (Py.world s1) in
        (Py.Halt (reported (Py.changed s1) answer),
         Py.MState w2 (Py.changed s1) (Py.calls s1 ++ [CGet (key_of p)]))
      else (Py.Halt (ExitJson (Py.changed s1) ""), s1)
  end.
Proof.
  unfold exec_module, reconcile, get_azure_netapp_volume, mount_path, reported,
    fail_json, raise.
  py_unfold.
  destruct (volumes_get netapp_client (key_of p) (Py.world s)) as [w1 [v|e]] eqn:Hget;
    cbn [Py.world Py.changed Py.calls].
  all: try (destruct e; cbn [Py.world Py.changed Py.calls]; [|reflexivity]).
  all: destruct (Utils.get_cd_action U volume _ (parameters p) (Py.changed s)) as [a c];
    cbn [Py.world Py.changed Py.calls].
  all: destruct c; [destruct check_mode; [|destruct a as [[]|]]|].
  all: cbn [Py.world Py.changed Py.calls].
  all: repeat match goal with
       | |- context [create_azure_netapp_volume ?c ?q ?s0] =>
           destruct (create_azure_netapp_volume c q s0) as [[[]|x] s1]
       | |- context [delete_azure_netapp_volume ?c ?q ?s0] =>
           destruct (delete_azure_netapp_volume c q s0) as [[[]|x] s1]
       end.
  all: try reflexivity.
  all: destruct (decide (state p = present)); [|reflexivity].
  all: cbn [Py.world Py.changed Py.calls].
  all: match goal with
       | |- context [volumes_get netapp_client (key_of p) ?w] =>
           destruct (volumes_get netapp_client (key_of p) w) as [w2 [v2|e2]]
       end; cbn [Py.world Py.changed Py.calls].
  all: try (destruct e2; reflexivity).
  all: destruct (mount_targets v2) as [[|mt l]|]; reflexivity.
Qed.

(** [get_azure_netapp_volume] answers [None] when the SDK raises
    [CloudError], and sends nothing but the read. *)
Lemma get_azure_netapp_volume_absent s w1 msg :
  volumes_get netapp_client (key_of p) (Py.world s) = (w1, inr (CloudError msg)) ->
  get_azure_netapp_volume netapp_client p s =
  (Py.Ret None, Py.MState w1 (Py.changed s) (Py.calls s ++ [CGet (key_of p)])).
Proof.
  intros Hget. unfold get_azure_netapp_volume. py_unfold. now rewrite Hget.
Qed.

Lemma get_azure_netapp_volume_found s w1 v :
  volumes_get netapp_client (key_of p) (Py.world s) = (w1, inl v) ->
  get_azure_netapp_volume netapp_client p s =
  (Py.Ret (Some v), Py.MState w1 (Py.changed s) (Py.calls s ++ [CGet (key_of p)])).
Proof.
  intros Hget. unfold get_azure_netapp_volume. py_unfold. now rewrite Hget.
Qed.
End Facts.

(** C9. In a run with state present that gets through the reconciliation
    step, the volume is read again from the remote system as that step
    left it.  A volume that is not found, or that has no mount targets
    ([None], or an empty list, on which indexing raises), ends the run
    with an error; otherwise the run exits with the mount path
    [ip:/creation_token] of the first mount target. *)
Theorem C9_exit_path_reports_mount_path :
  forall {W : Type} (U : ModuleUtils) (netapp_client : Client W) (p : params)
         (check_mode : bool) (s s1 : Py.mstate W call),
    state p = present ->
    reconcile U netapp_client p check_mode s = (Py.Ret tt, s1) ->
    let '(w2, answer) := volumes_get netapp_client (key_of p) (Py.world s1) in
    exec_module U netapp_client p check_mode s =
      (Py.Halt
         match answer with
         | inr (CloudError _) => FailJson (ErrCannotBeFound (name p))
         | inr e => Raise (Uncaught e)
         | inl v =>
             match mount_targets v with
             | None => FailJson (ErrNoMountTargets (name p) v)
             | Some [] => Raise IndexError
             | Some (mt :: _) =>
                 ExitJson (Py.changed s1)
                   (fmt_s (ip_address mt) ++ ":/" ++ fmt_s (creation_token v))
             end
         end,
       Py.MState w2 (Py.changed s1) (Py.calls s1 ++ [CGet (key_of p)])).
Proof.
  intros W U netapp_client p check_mode s s1 Hstate Hrec.
  rewrite exec_module_reconcile, Hrec.
  destruct (decide (state p = present)) as [_|Hne]; [|contradiction].
  destruct (volumes_get netapp_client (key_of p) (Py.world s1)) as [w2 answer].
  reflexivity.
Qed.

Lemma C9_witness :
  (exec_module Helper.utils (AzureStore.client "sub") (demo_params present) false
     (Py.MState demo_world false [])).1 =
  Py.Halt (ExitJson true "10.0.0.4:/vol1").
Proof.
  pose proof (C9_exit_path_reports_mount_path Helper.utils (AzureStore.client "sub")
                (demo_params present) false (Py.MState demo_world false [])
                _ eq_refl eq_refl) as H.
  cbv beta iota zeta in H.
  vm_compute in H. vm_compute. congruence.
Defined.
End AzureFacts.

(** ** Calls sent by a piece of module code *)

Module PyFacts.
Section Sends.
Context {W C X : Type} {failure : X -> Prop}.
Local Open Scope list_scope.

Local Abbreviation M := (Py.M W C X).

(** [sends_at s m expected]: run from [s], [m] appends to the log a prefix
    of [expected], and all of it when it returns; it leaves [changed]
    alone, and when it ends the run it does so with a [failure].
    [sends m expected] says so for every state. *)
Definition sends_at {A} (s : Py.mstate W C) (m : M A) (expected : list C) : Prop :=
  exists sent,
    Py.calls (m s).2 = Py.calls s ++ sent /\
    sent `prefix_of` expected /\
    Py.changed (m s).2 = Py.changed s /\
    (forall a, (m s).1 = Py.Ret a -> sent = expected) /\
    (forall x, (m s).1 = Py.Halt x -> failure x).

Definition sends {A} (m : M A) (expected : list C) : Prop :=
  forall s, sends_at s m expected.

Lemma sends_ret {A} (a : A) : sends (Py.ret a) [].
Proof.
  intros s. exists []. cbn. rewrite app_nil_r.
  split; [|split; [|split; [|split]]]; auto. discriminate.
Qed.

Lemma sends_halt {A} (x : X) (expected : list C) :
  failure x -> sends (@Py.halt W C X A x) expected.
Proof.
  intros Hx s. exists []. cbn. rewrite app_nil_r.
  split; [|split; [|split; [|split]]]; auto.
  - apply prefix_nil.
  - discriminate.
  - now intros x' [= <-].
Qed.

Lemma sends_at_bind {A B} s (m : M A) (k : A -> M B) e1 e2 :
  sends_at s m e1 ->
  (forall a s1, m s = (Py.Ret a, s1) -> sends_at s1 (k a) e2) ->
  sends_at s (Py.bind m k) (e1 ++ e2).
Proof.
  intros Hm Hk. unfold sends_at, Py.bind in *.
  destruct Hm as (sent1 & Hc1 & Hp1 & Hch1 & Hr1 & Hf1).
  destruct (m s) as [[a|x] s1] eqn:Hms; cbn [fst snd] in *.
  - destruct (Hk a s1 eq_refl) as (sent2 & Hc2 & Hp2 & Hch2 & Hr2 & Hf2).
    specialize (Hr1 a eq_refl). subst sent1.
    exists (e1 ++ sent2). split; [|split; [|split; [|split]]].
    + rewrite Hc2, Hc1. now rewrite app_assoc.
    + now apply prefix_app.
    + congruence.
    + intros b Hb. now rewrite (Hr2 b Hb).
    + exact Hf2.
  - exists sent1. split; [|split; [|split; [|split]]]; auto.
    + now apply prefix_app_r.
    + discriminate.
    + intros x' [= <-]. now apply Hf1.
Qed.

Lemma sends_bind {A B} (m : M A) (k : A -> M B) e1 e2 :
  sends m e1 -> (forall a, sends (k a) e2) -> sends (Py.bind m k) (e1 ++ e2).
Proof.
  intros Hm Hk s. apply sends_at_bind; [apply Hm|]. intros a s1 _. apply Hk.
Qed.

Lemma sends_at_eq {A} s (m : M A) e e' : sends_at s m e -> e = e' -> sends_at s m e'.
Proof. now intros H <-. Qed.

Lemma sends_eq {A} (m : M A) e e' : sends m e -> e = e' -> sends m e'.
Proof. now intros H <-. Qed.

Lemma sends_then {A B} (m : M A) (k : A -> M B) e :
  sends m e -> (forall a, sends (k a) []) -> sends (Py.bind m k) e.
Proof.
  intros Hm Hk. eapply sends_eq; [apply sends_bind; eauto|]. apply app_nil_r.
Qed.

Lemma sends_bind_halt {A B} (x : X) (k : A -> M B) (expected : list C) :
  failure x -> sends (Py.bind (Py.halt x) k) expected.
Proof. intros Hx s. apply (sends_halt x expected Hx s). Qed.

Lemma sends_bind_ret {A B} (a : A) (k : A -> M B) (expected : list C) :
  sends (k a) expected -> sends (Py.bind (Py.ret a) k) expected.
Proof. intros Hk s. apply (Hk s). Qed.

Lemma sends_pure {A} (m : M A) (a : A) :
  (forall s, m s = (Py.Ret a, s)) -> sends m [].
Proof.
  intros Hm s. exists []. rewrite Hm. cbn. rewrite app_nil_r.
  split; [|split; [|split; [|split]]]; auto. discriminate.
Qed.

Lemma sends_get_changed : sends (@Py.get_changed W C X) [].
Proof.
  intros s. exists []. cbn. rewrite app_nil_r.
  split; [|split; [|split; [|split]]]; auto. discriminate.
Qed.

Lemma sends_invoke {R} (c : C) (srv : W -> W * R) : sends (Py.invoke c srv) [c].
Proof.
  intros s. exists [c]. unfold Py.invoke. destruct (srv (Py.world s)) as [w r].
  cbn. split; [|split; [|split; [|split]]]; auto. discriminate.
Qed.

Lemma sends_for_each {A} (l : list A) (body : A -> M unit) (f : A -> list C) :
  (forall x, sends (body x) (f x)) ->
  sends (Py.for_each l body) (concat (map f l)).
Proof.
  intros Hbody. induction l as [|x l IH]; cbn [Py.for_each map concat].
  - apply sends_ret.
  - apply sends_bind; auto.
Qed.

(** Two pieces of module code that behave alike from every state. *)
Definition eqm {A} (m1 m2 : M A) : Prop := forall s, m1 s = m2 s.

Lemma bind_split {A B D} (m : M A) (k : A -> M B) (h : B -> M D) (k1 : A -> M D) :
  (forall a, eqm (k1 a) (Py.bind (k a) h)) ->
  eqm (Py.bind m k1) (Py.bind (Py.bind m k) h).
Proof.
  intros Hk s. unfold Py.bind. destruct (m s) as [[a|x] s1]; [|reflexivity].
  rewrite (Hk a s1). reflexivity.
Qed.

Lemma bind_ext {A B} (m : M A) (k1 k2 : A -> M B) :
  (forall a, eqm (k1 a) (k2 a)) -> eqm (Py.bind m k1) (Py.bind m k2).
Proof.
  intros Hk s. unfold Py.bind. destruct (m s) as [[a|x] s1]; [|reflexivity].
  apply Hk.
Qed.

Lemma ret_split {A B} (a : A) (h : A -> M B) : eqm (h a) (Py.bind (Py.ret a) h).
Proof. intros s. reflexivity. Qed.

Lemma halt_split {A B} (x : X) (h : A -> M B) :
  eqm (Py.halt x) (Py.bind (Py.halt x) h).
Proof. intros s. reflexivity. Qed.
End Sends.
End PyFacts.

(** ** Properties of [na_ontap_igroup]: the initiator list *)

Module IgroupCalls.
Import Igroup PyFacts.
Local Open Scope list_scope.

(** The outcomes that are failures: [fail_json] and uncaught exceptions. *)
Definition failed (x : outcome) : Prop :=
  match x with
  | ExitJson _ _ _ => False
  | _ => True
  end.

Abbreviation sends := (PyFacts.sends (failure := failed)).
Abbreviation sends_at := (PyFacts.sends_at (failure := failed)).


Section Calls.
Context {W : Type}.
Variable conn : Connection W.
Variable use_rest : bool.
Variable p : params.

(** The call that removes one initiator, and the calls that add a list of
    initiators: one POST with all of them over REST, one call each over
    ZAPI. *)
Definition remove_call (uuid : option pyval) (i : string) : call :=
  if use_rest then Rest (RDeleteInitiator uuid i) else Zapi (ZIgroupRemove (name p) i).

Definition add_calls (uuid : option pyval) (to_add : list string) : list call :=
  if use_rest && bool_decide (is_Some uuid) then
    if bool_decide (to_add = []) then [] else [Rest (RPostInitiators uuid to_add)]
  else map (fun i => Zapi (ZIgroupAdd (name p) i)) to_add.

Lemma sends_fail_on_error error : sends (@fail_on_error W error) [].
Proof. destruct error; [apply sends_halt; exact I|apply sends_ret]. Qed.

Lemma sends_server_invoke c : sends (server_invoke conn use_rest c) [Zapi c].
Proof.
  unfold server_invoke. destruct use_rest; [apply sends_halt; exact I|apply sends_invoke].
Qed.

Lemma sends_rest_api_send c : sends (rest_api_send conn c) [Rest c].
Proof. apply sends_invoke. Qed.

Lemma sends_modify_initiator i add :
  sends (modify_initiator conn use_rest p i add)
    [Zapi (if add then ZIgroupAdd (name p) i else ZIgroupRemove (name p) i)].
Proof.
  unfold modify_initiator. apply sends_then; [apply sends_server_invoke|].
  intros [e|err]; [apply sends_ret|apply sends_halt; exact I].
Qed.

Lemma sends_delete_initiator_rest uuid i :
  sends (delete_initiator_rest conn uuid i) [Rest (RDeleteInitiator uuid i)].
Proof.
  unfold delete_initiator_rest. apply sends_then; [apply sends_rest_api_send|].
  intros e. apply sends_fail_on_error.
Qed.

Lemma sends_add_initiators_rest uuid l :
  sends (add_initiators_rest conn uuid l) [Rest (RPostInitiators uuid l)].
Proof.
  unfold add_initiators_rest. apply sends_then; [apply sends_rest_api_send|].
  intros e. apply sends_fail_on_error.
Qed.

Lemma concat_map_filter {A B} (P : A -> Prop) `{!forall x, Decision (P x)}
    (f : A -> B) (l : list A) :
  concat (map (fun x => if bool_decide (P x) then [f x] else []) l) = map f (filter P l).
Proof.
  induction l as [|x l IH]; [reflexivity|].
  cbn [map concat]. rewrite filter_cons, IH.
  destruct (decide (P x)) as [HP|HP].
  - now rewrite bool_decide_eq_true_2.
  - now rewrite bool_decide_eq_false_2.
Qed.

Lemma concat_map_singleton {A B} (f : A -> B) (l : list A) :
  concat (map (fun x => [f x]) l) = map f l.
Proof. induction l as [|x l IH]; cbn; congruence. Qed.

(** [remove_initiators] removes the current initiators that are not in
    the desired list, in their order. *)
Lemma sends_remove_initiators uuid current :
  sends (remove_initiators conn use_rest p uuid current)
    (map (remove_call uuid) (filter (fun i => i ∉ default [] (initiators p)) current)).
Proof.
  unfold remove_initiators.
  eapply sends_eq.
  - apply sends_for_each with
      (f := fun i => if bool_decide (i ∉ default [] (initiators p))
                     then [remove_call uuid i] else []).
    intros i. destruct (bool_decide _); [|apply sends_ret].
    unfold remove_call. pose proof (sends_modify_initiator i false) as Hz.
    destruct use_rest; [apply sends_delete_initiator_rest|exact Hz].
  - apply (concat_map_filter (fun i => i ∉ default [] (initiators p))).
Qed.

(** [add_initiators] adds the desired initiators that are not current. *)
Lemma sends_add_initiators uuid current desired :
  initiators p = Some desired -> desired <> [""] ->
  sends (add_initiators conn use_rest p uuid current)
    (add_calls uuid (filter (fun i => i ∉ current) desired)).
Proof.
  intros Hd Hne. unfold add_initiators, add_calls. rewrite Hd.
  rewrite bool_decide_eq_false_2 by assumption.
  destruct (use_rest && bool_decide (is_Some uuid)) eqn:Hrest; cbn [andb].
  - destruct (bool_decide (filter (fun i => i ∉ current) desired = [])) eqn:Hnil; cbn [negb].
    + apply bool_decide_eq_true_1 in Hnil. rewrite Hnil. apply sends_ret.
    + apply sends_add_initiators_rest.
  - eapply sends_eq.
    + apply sends_for_each with (f := fun i => [Zapi (ZIgroupAdd (name p) i)]).
      intros i. apply (sends_modify_initiator i true).
    + apply concat_map_singleton.
Qed.

(** With [initiators: ''] nothing is added. *)
Lemma add_initiators_empty_string uuid current s :
  initiators p = Some [""] ->
  add_initiators conn use_rest p uuid current s = (Py.Ret tt, s).
Proof. intros Hd. unfold add_initiators. now rewrite Hd. Qed.

Lemma add_initiators_none uuid current s :
  initiators p = None ->
  add_initiators conn use_rest p uuid current s = (Py.Ret tt, s).
Proof. intros Hd. unfold add_initiators. now rewrite Hd. Qed.
End Calls.
End IgroupCalls.

Module OntapStore.
Import Igroup.
Local Open Scope list_scope.

(** An igroup of the vserver, kept under its name. *)
Record igroup := IgroupRec {
  ig_uuid : string;
  ig_os_type : string;
  ig_protocol : string;
  ig_portset : option string;
  ig_initiators : list string;
}.

Record world := World {
  svm : string;
  igroups : gmap string igroup;
  next_uuid : string;
}.

Definition with_initiators (g : igroup) (l : list string) : igroup :=
  IgroupRec (ig_uuid g) (ig_os_type g) (ig_protocol g) (ig_portset g) l.

Definition put (name : string) (g : igroup) (w : world) : world :=
  World (svm w) (<[name := g]> (igroups w)) (next_uuid w).

(** The igroup with a given uuid, with its name. *)
Definition find_uuid (uuid : option pyval) (w : world) : option (string * igroup) :=
  match uuid with
  | Some (PStr u) =>
      head (map_to_list (filter (fun ng => ig_uuid ng.2 = u) (igroups w)))
  | _ => None
  end.

Definition leaf (tag text : string) : na_element := NaElement tag (Some text) [].

Definition initiator_info (i : string) : na_element :=
  NaElement "initiator-info" None [leaf "initiator-name" i].

Definition igroup_info (name : string) (w : world) (g : igroup) : na_element :=
  NaElement "initiator-group-info" None
    ([leaf "initiator-group-name" name;
      leaf "vserver" (svm w);
      leaf "initiator-group-os-type" (ig_os_type g);
      leaf "initiator-group-type" (ig_protocol g)] ++
     match ig_portset g with
     | Some ps => [leaf "initiator-group-portset-name" ps]
     | None => []
     end ++
     match ig_initiators g with
     | [] => []
     | l => [NaElement "initiators" None (map initiator_info l)]
     end).

Definition results (children : list na_element) : na_element :=
  NaElement "results" None children.

Definition lookup_igroup (name vserver : string) (w : world) : option igroup :=
  if decide (vserver = svm w) then igroups w !! name else None.

Definition zapi (c : zapi_call) (w : world) : world * (na_element + string) :=
  match c with
  | ZEmsLogEvent => (w, inl (results []))
  | ZIgroupGetIter name vserver =>
      match lookup_igroup name vserver w with
      | Some g =>
          (w, inl (results [leaf "num-records" "1";
                            NaElement "attributes-list" None [igroup_info name w g]]))
      | None => (w, inl (results [leaf "num-records" "0"]))
      end
  | ZIgroupCreate name os_type igroup_type bind_portset =>
      match igroups w !! name with
      | Some _ => (w, inr "igroup already exists")
      | None =>
          let g := IgroupRec (next_uuid w) (default "default" os_type)
                     (default "mixed" igroup_type) bind_portset [] in
          (World (svm w) (<[name := g]> (igroups w)) (next_uuid w ++ "'")%string,
           inl (results []))
      end
  | ZIgroupDestroy name _ =>
      match igroups w !! name with
      | Some _ => (World (svm w) (delete name (igroups w)) (next_uuid w), inl (results []))
      | None => (w, inr "no such igroup")
      end
  | ZIgroupRename name new_name =>
      match igroups w !! name, igroups w !! new_name with
      | Some g, None =>
          (World (svm w) (<[new_name := g]> (delete name (igroups w))) (next_uuid w),
           inl (results []))
      | _, _ => (w, inr "cannot rename igroup")
      end
  | ZIgroupAdd name initiator =>
      match igroups w !! name with
      | Some g =>
          if decide (initiator ∈ ig_initiators g) then (w, inr "initiator already in igroup")
          else (put name (with_initiators g (ig_initiators g ++ [initiator])) w,
                inl (results []))
      | None => (w, inr "no such igroup")
      end
  | ZIgroupRemove name initiator =>
      match igroups w !! name with
      | Some g =>
          (put name (with_initiators g (filter (fun i => i <> initiator) (ig_initiators g))) w,
           inl (results []))
      | None => (w, inr "no such igroup")
      end
  end.

Definition record_of (name : string) (w : world) (g : igroup) : rest_record :=
  RestRecord (Some name) (Some (ig_uuid g)) (Some (svm w)) (Some (ig_os_type g))
    (Some (ig_protocol g))
    match ig_initiators g with
    | [] => None
    | l => Some (map Some l)
    end.

Definition get (name vserver : string) (w : world)
  : world * (option rest_response * option string) :=
  match lookup_igroup name vserver w with
  | Some g => (w, (Some (RestResponse 1 [record_of name w g]), None))
  | None => (w, (Some (RestResponse 0 []), None))
  end.

(** PATCH: the name, the OS type and the portset can be changed. *)
Definition patch (name : string) (g : igroup) (body : dict) (w : world) : world * option string :=
  let g' :=
    IgroupRec (ig_uuid g)
      match body !! "os_type" with Some (PStr o) => o | _ => ig_os_type g end
      (ig_protocol g)
      match body !! "portset" with Some (PStr ps) => Some ps | _ => ig_portset g end
      (ig_initiators g) in
  match body !! "name" with
  | Some (PStr new_name) =>
      if decide (new_name = name) then (put name g' w, None)
      else match igroups w !! new_name with
           | Some _ => (w, Some "igroup name already in use")
           | None =>
               (World (svm w) (<[new_name := g']> (delete name (igroups w))) (next_uuid w),
                None)
           end
  | _ => (put name g' w, None)
  end.

Definition send (c : rest_call) (w : world) : world * option string :=
  match c with
  | RGetIgroups _ _ => (w, None)
  | RPostIgroups body =>
      if decide (cb_svm_name body = svm w) then
        match igroups w !! cb_name body with
        | Some _ => (w, Some "igroup already exists")
        | None =>
            let g := IgroupRec (next_uuid w) (cb_os_type body)
                       (default "mixed" (cb_protocol body)) (cb_portset body)
                       (default [] (cb_initiators body)) in
            (World (svm w) (<[cb_name body := g]> (igroups w)) (next_uuid w ++ "'")%string,
             None)
        end
      else (w, Some "no such vserver")
  | RPostInitiators uuid names =>
      match find_uuid uuid w with
      | Some (name, g) => (put name (with_initiators g (ig_initiators g ++ names)) w, None)
      | None => (w, Some "no such igroup")
      end
  | RDeleteInitiator uuid initiator =>
      match find_uuid uuid w with
      | Some (name, g) =>
          (put name (with_initiators g (filter (fun i => i <> initiator) (ig_initiators g))) w,
           None)
      | None => (w, Some "no such igroup")
      end
  | RPatchIgroup uuid body =>
      match find_uuid uuid w with
      | Some (name, g) => patch name g body w
      | None => (w, Some "no such igroup")
      end
  | RDeleteIgroup uuid _ =>
      match find_uuid uuid w with
      | Some (name, _) => (World (svm w) (delete name (igroups w)) (next_uuid w), None)
      | None => (w, Some "no such igroup")
      end
  end.

Definition conn (rest : bool) (version : Z * Z * Z) : Connection world := {|
  is_rest := rest;
  get_ontap_version := version;
  HAS_NETAPP_LIB := true;
  invoke_successfully := zapi;
  rest_get := get;
  rest_send := send;
|}.
End OntapStore.

Module IgroupDemo.
Import Igroup.

Definition demo_params (st : state_t) (from : option string) (inits : option (list string))
  : params :=
  Params st "ig1" from (Some "linux") (Some "iscsi") inits "vs1" false None.

Definition g0 : OntapStore.igroup :=
  OntapStore.IgroupRec "u-0" "linux" "iscsi" None ["iqn.b"; "iqn.c"].

Definition empty_world : OntapStore.world := OntapStore.World "vs1" ∅ "u-1".
Definition world_with (name : string) : OntapStore.world :=
  OntapStore.World "vs1" {[name := g0]} "u-1".

(** The record [get_igroup] builds from the REST answer for [g0]. *)
Definition observed_rest_ig1 : dict :=
  <["initiators" := PList ["iqn.b"; "iqn.c"]]>
  (<["initiator_group_type" := PStr "iscsi"]>
  (<["os_type" := PStr "linux"]>
  (<["vserver" := PStr "vs1"]>
  (<["uuid" := PStr "u-0"]>
  (<["name" := PStr "ig1"]> ∅))))).

End IgroupDemo.


(** ** Properties of [na_ontap_igroup]: the run in three steps *)

Module IgroupSteps.
Import Igroup PyFacts.
Local Open Scope list_scope.

(** What [apply] has decided when it reaches the dispatch of line 520. *)
Record decision := Decision {
  d_cd_action : option cd_action;
  d_rename : option bool;
  d_current : option dict;
  d_modify : option dict;
  d_uuid : option pyval;
}.

Section Steps.
Context {W : Type}.
Variable U : ModuleUtils.
Variable conn : Connection W.
Variable use_rest : bool.
Variable p : params.
Variable check_mode : bool.

Local Open Scope py_scope.
Local Abbreviation M := (Py.M W call outcome).

(** Lines 500-503: the igroup is looked up under [name]. *)
Definition observe : M (option dict) :=
  autosupport_log conn use_rest ;;;
  get_igroup U conn use_rest p (name p).

(** Lines 504-518: the action is chosen and checked. *)
Definition decide_from (current : option dict) : M decision :=
  cd_action <- Py.helper (Utils.get_cd_action U dict current (parameters p)) ;;
  r <- (if bool_decide (cd_action = Some Create) && nonempty (from_name p)
        then is_rename_action U conn use_rest p cd_action current
        else Py.ret (cd_action, None, current)) ;;
  let '(cd_action, rename, current) := r in
  r <- (if bool_decide (cd_action = None) && bool_decide (state p = present) then
          modify <- Py.helper (Utils.get_modified_attributes U current (parameters p)) ;;
          if use_rest then Py.ret (Some false, Some modify)
          else Py.ret (rename, Some (delete "name" modify))
        else Py.ret (rename, None)) ;;
  let '(rename, modify) := r in
  uuid <- (if truthy current && use_rest then
             match current ≫= (fun c => c !! "uuid") with
             | Some u => Py.ret (Some u)
             | None => raise (KeyError "uuid")
             end
           else Py.ret None) ;;
  (if bool_decide (cd_action = Some Create) && use_rest && bool_decide (os_type p = None)
   then fail_json ErrOsTypeRequired else Py.ret tt) ;;;
  validate_modify use_rest modify ;;;
  Py.ret (Decision cd_action rename current modify uuid).

(** Lines 520-533: the calls are sent, unless in check mode, and the run
    exits. *)
Definition execute (d : decision) : M Empty_set :=
  let '(Decision cd_action rename current modify uuid) := d in
  changed <- Py.get_changed ;;
  modify <-
    (if changed && negb check_mode then
       (if bool_decide (rename = Some true) then rename_igroup conn use_rest p
        else if bool_decide (cd_action = Some Create) then create_igroup conn use_rest p
        else if bool_decide (cd_action = Some Delete) then delete_igroup conn use_rest p uuid
        else Py.ret tt) ;;;
       if truthy modify then
         initiators <- current_initiators current ;;
         remove_initiators conn use_rest p uuid initiators ;;;
         add_initiators conn use_rest p uuid initiators ;;;
         let modify := delete "initiators" <$> modify in
         (if truthy modify then modify_igroup_rest conn uuid (default ∅ modify)
          else Py.ret tt) ;;;
         Py.ret modify
       else Py.ret modify
     else Py.ret modify) ;;
  changed <- Py.get_changed ;;
  Py.halt (ExitJson changed current modify).

Lemma apply_steps :
  eqm (apply U conn use_rest p check_mode)
      (Py.bind observe (fun current => Py.bind (decide_from current) execute)).
Proof.
  unfold apply, observe, decide_from.
  apply bind_split; intros _.
  apply bind_ext; intros current.
  apply bind_split; intros cd_action.
  apply bind_split; intros [[cd_action' rename] current'].
  apply bind_split; intros [rename' modify].
  apply bind_split; intros uuid.
  apply bind_split; intros _.
  apply bind_split; intros _.
  intros s. reflexivity.
Qed.

(** In check mode, or when nothing has changed, [execute] sends nothing
    and reports [changed], [current] and [modify] as decided. *)
Lemma execute_dry d s :
  Py.changed s && negb check_mode = false ->
  execute d s = (Py.Halt (ExitJson (Py.changed s) (d_current d) (d_modify d)), s).
Proof.
  intros Hdry. destruct d as [cd rn cur md uu]. unfold execute.
  unfold Py.bind, Py.get_changed at 1. cbn [fst snd]. rewrite Hdry. reflexivity.
Qed.

Import IgroupCalls.

(** The calls [execute] is to send for a decision, when not in check mode
    and something has changed. *)
Definition add_expected (uuid : option pyval) (current : list string) : list call :=
  match initiators p with
  | Some desired =>
      if bool_decide (desired = [""]) then []
      else add_calls use_rest p uuid (filter (fun i => i ∉ current) desired)
  | None => []
  end.

Definition create_calls : list call :=
  if use_rest then
    match os_type p with
    | Some o =>
        [Rest (RPostIgroups (CreateBody (name p) o (vserver p)
                 (initiator_group_type p) (bind_portset p) (initiators p)))]
    | None => []
    end
  else
    Zapi (ZIgroupCreate (name p) (os_type p) (initiator_group_type p) (bind_portset p))
    :: add_expected None [].

Definition delete_calls (uuid : option pyval) : list call :=
  if use_rest then [Rest (RDeleteIgroup uuid (force_remove_initiator p))]
  else [Zapi (ZIgroupDestroy (name p) (force_remove_initiator p))].

Definition rename_calls : list call :=
  if use_rest then []
  else match from_name p with
       | Some from_name => [Zapi (ZIgroupRename from_name (name p))]
       | None => []
       end.

Definition action_calls (d : decision) : list call :=
  if bool_decide (d_rename d = Some true) then rename_calls
  else if bool_decide (d_cd_action d = Some Create) then create_calls
  else if bool_decide (d_cd_action d = Some Delete) then delete_calls (d_uuid d)
  else [].

Definition patch_calls (uuid : option pyval) (modify : option dict) : list call :=
  if truthy modify then
    match filter (fun option => rest_modify_zapi_to_rest !! option = None)
                 (fst <$> map_to_list (default ∅ modify)) with
    | _ :: _ => []
    | [] =>
        if bool_decide (patch_body (default ∅ modify) = ∅) then []
        else [Rest (RPatchIgroup uuid (patch_body (default ∅ modify)))]
    end
  else [].

Definition modify_calls (d : decision) : list call :=
  if truthy (d_modify d) then
    match d_current d ≫= (fun c => c !! "initiators") with
    | Some (PList l) =>
        map (remove_call use_rest p (d_uuid d))
            (filter (fun i => i ∉ default [] (initiators p)) l) ++
        add_expected (d_uuid d) l ++
        patch_calls (d_uuid d) (delete "initiators" <$> d_modify d)
    | _ => []
    end
  else [].

Lemma sends_add_expected uuid current :
  sends (add_initiators conn use_rest p uuid current) (add_expected uuid current).
Proof.
  unfold add_expected. destruct (initiators p) as [desired|] eqn:Hd.
  - destruct (bool_decide (desired = [""])) eqn:He.
    + apply bool_decide_eq_true_1 in He. subst desired.
      apply (sends_pure _ tt). intros s. now apply add_initiators_empty_string.
    + apply bool_decide_eq_false_1 in He. now apply sends_add_initiators.
  - apply (sends_pure _ tt). intros s. now apply add_initiators_none.
Qed.

Lemma sends_create_igroup : sends (create_igroup conn use_rest p) create_calls.
Proof.
  unfold create_igroup, create_calls, create_igroup_rest.
  pose proof sends_server_invoke conn use_rest as Hz.
  pose proof sends_add_expected as Ha.
  destruct use_rest.
  - destruct (os_type p); [|apply sends_halt; exact I].
    apply sends_then; [apply sends_rest_api_send|]. intros e. apply sends_fail_on_error.
  - apply (sends_bind _ _ [_]); [apply Hz|].
    intros [e|err]; [apply Ha|apply sends_halt; exact I].
Qed.

Lemma sends_delete_igroup uuid :
  sends (delete_igroup conn use_rest p uuid) (delete_calls uuid).
Proof.
  unfold delete_igroup, delete_calls, delete_igroup_rest.
  pose proof sends_server_invoke conn use_rest as Hz.
  destruct use_rest.
  - apply sends_then; [apply sends_rest_api_send|]. intros e. apply sends_fail_on_error.
  - apply sends_then; [apply Hz|]. intros [e|err]; [apply sends_ret|apply sends_halt; exact I].
Qed.

Lemma sends_rename_igroup : sends (rename_igroup conn use_rest p) rename_calls.
Proof.
  unfold rename_igroup, rename_calls.
  pose proof sends_server_invoke conn use_rest as Hz.
  destruct use_rest.
  - apply sends_bind_halt; exact I.
  - apply (sends_bind _ _ [] _); [apply sends_ret|]. intros _.
    destruct (from_name p); [|apply sends_halt; exact I].
    apply sends_then; [apply Hz|]. intros [e|err]; [apply sends_ret|apply sends_halt; exact I].
Qed.

Lemma sends_patch uuid modify :
  sends (if truthy modify then modify_igroup_rest conn uuid (default ∅ modify)
         else Py.ret tt)
        (patch_calls uuid modify).
Proof.
  unfold patch_calls, modify_igroup_rest.
  destruct (truthy modify); [|apply sends_ret].
  destruct (filter _ _); [|apply sends_halt; exact I].
  destruct (bool_decide _); [apply sends_ret|].
  apply sends_then; [apply sends_rest_api_send|]. intros e. apply sends_fail_on_error.
Qed.

Lemma sends_action d :
  sends (if bool_decide (d_rename d = Some true) then rename_igroup conn use_rest p
         else if bool_decide (d_cd_action d = Some Create) then create_igroup conn use_rest p
         else if bool_decide (d_cd_action d = Some Delete)
              then delete_igroup conn use_rest p (d_uuid d)
         else Py.ret tt)
        (action_calls d).
Proof.
  unfold action_calls.
  destruct (bool_decide (d_rename d = Some true)); [apply sends_rename_igroup|].
  destruct (bool_decide (d_cd_action d = Some Create)); [apply sends_create_igroup|].
  destruct (bool_decide (d_cd_action d = Some Delete)); [apply sends_delete_igroup|].
  apply sends_ret.
Qed.

Lemma sends_modify d :
  sends (if truthy (d_modify d) then
           initiators <- current_initiators (d_current d) ;;
           remove_initiators conn use_rest p (d_uuid d) initiators ;;;
           add_initiators conn use_rest p (d_uuid d) initiators ;;;
           let modify := delete "initiators" <$> d_modify d in
           (if truthy modify then modify_igroup_rest conn (d_uuid d) (default ∅ modify)
            else Py.ret tt) ;;;
           Py.ret modify
         else Py.ret (d_modify d))
        (modify_calls d).
Proof.
  unfold modify_calls. destruct (truthy (d_modify d)); [|apply sends_ret].
  unfold current_initiators.
  destruct (d_current d) as [c|]; cbn [mbind option_bind];
    [|apply sends_bind_halt; exact I].
  destruct (c !! "initiators") as [[| | |l]|]; try (apply sends_bind_halt; exact I).
  apply sends_bind_ret.
  apply sends_bind; [apply sends_remove_initiators|]. intros _.
  apply sends_bind; [apply sends_add_expected|]. intros _.
  apply sends_then; [apply sends_patch|]. intros _. apply sends_ret.
Qed.

(** Lines 521-532: the calls of the action, then those of the modify. *)
Definition perform (d : decision) : M (option dict) :=
  (if bool_decide (d_rename d = Some true) then rename_igroup conn use_rest p
   else if bool_decide (d_cd_action d = Some Create) then create_igroup conn use_rest p
   else if bool_decide (d_cd_action d = Some Delete)
        then delete_igroup conn use_rest p (d_uuid d)
   else Py.ret tt) ;;;
  if truthy (d_modify d) then
    initiators <- current_initiators (d_current d) ;;
    remove_initiators conn use_rest p (d_uuid d) initiators ;;;
    add_initiators conn use_rest p (d_uuid d) initiators ;;;
    let modify := delete "initiators" <$> d_modify d in
    (if truthy modify then modify_igroup_rest conn (d_uuid d) (default ∅ modify)
     else Py.ret tt) ;;;
    Py.ret modify
  else Py.ret (d_modify d).

Lemma sends_perform d : sends (perform d) (action_calls d ++ modify_calls d).
Proof. exact (sends_bind _ _ _ _ (sends_action d) (fun _ => sends_modify d)). Qed.

(** Not in check mode and with a change, [execute] performs the calls and
    exits with what is left of [modify]. *)
Lemma execute_perform d s :
  Py.changed s = true -> check_mode = false ->
  execute d s =
  match perform d s with
  | (Py.Ret modify, s2) =>
      (Py.Halt (ExitJson (Py.changed s2) (d_current d) modify), s2)
  | (Py.Halt x, s2) => (Py.Halt x, s2)
  end.
Proof.
  intros Hch Hcm. destruct d as [cd rn cur md uu]. unfold execute, perform.
  unfold Py.bind at 1. unfold Py.get_changed at 1. rewrite Hch, Hcm.
  cbn [negb andb d_rename d_cd_action d_uuid d_modify d_current].
  unfold Py.bind at 1.
  match goal with |- context [match ?m s with _ => _ end] => destruct (m s) as [[modify|x] s2] end;
    reflexivity.
Qed.
End Steps.
End IgroupSteps.

(** ** Lookups and initiator updates of [na_ontap_igroup] *)

Module IgroupClaims.
Import Igroup PyFacts IgroupCalls IgroupSteps IgroupDemo.
Local Open Scope list_scope.

Lemma get_child_by_name_content result tag text :
  get_child_content result tag = Some text -> is_Some (get_child_by_name result tag).
Proof.
  unfold get_child_content. destruct (get_child_by_name result tag); [eauto|discriminate].
Qed.

(** [get_igroup_rest] answers [None] when the helper finds no record and
    no error in the response. *)
Lemma get_igroup_rest_absent {W} (U : ModuleUtils) (conn : Connection W) p n s w1
    response error :
  rest_get conn n (vserver p) (Py.world s) = (w1, (response, error)) ->
  Utils.check_for_0_or_1_records U response error = (None, None) ->
  get_igroup_rest U conn p n s =
  (Py.Ret None, Py.MState w1 (Py.changed s) (Py.calls s ++ [Rest (RGetIgroups n (vserver p))])).
Proof.
  intros Hget Hcheck. unfold get_igroup_rest, Py.bind, Py.invoke.
  rewrite Hget. cbn [Py.world Py.changed Py.calls]. now rewrite Hcheck.
Qed.

(** Over ZAPI, [get_igroup] answers [None] when the reply counts no
    record. *)
Lemma get_igroup_zapi_absent {W} (U : ModuleUtils) (conn : Connection W) p n s w1 result :
  invoke_successfully conn (ZIgroupGetIter n (vserver p)) (Py.world s) = (w1, inl result) ->
  get_child_by_name result "num-records" = None \/
  get_child_content result "num-records" = Some "0" ->
  get_igroup U conn false p n s =
  (Py.Ret None,
   Py.MState w1 (Py.changed s) (Py.calls s ++ [Zapi (ZIgroupGetIter n (vserver p))])).
Proof.
  intros Hget Hzero. unfold get_igroup, server_invoke, Py.bind, Py.invoke.
  rewrite Hget. cbn [Py.world Py.changed Py.calls].
  destruct Hzero as [Hnone|Hzero].
  - now rewrite Hnone.
  - destruct (get_child_by_name_content _ _ _ Hzero) as [c Hc].
    now rewrite Hc, Hzero.
Qed.

(** C8. A resource that does not exist is reported as [None], not as an
    error: the Azure lookup answers [None] when the SDK raises [CloudError];
    the igroup lookup answers [None] when no record matches, over REST
    (the response holds zero records, for which the response helper gives
    neither a record nor an error) and over ZAPI (the reply counts zero
    records).  Each lookup sends the one read and leaves [changed] alone. *)
Theorem C8_missing_resource_is_None :
  (forall {W : Type} (netapp_client : Azure.Client W) (p : Azure.params)
          (s : Py.mstate W Azure.call) (w1 : W) (msg : string),
      Azure.volumes_get netapp_client (Azure.key_of p) (Py.world s)
        = (w1, inr (Azure.CloudError msg)) ->
      Azure.get_azure_netapp_volume netapp_client p s =
      (Py.Ret None,
       Py.MState w1 (Py.changed s) (Py.calls s ++ [Azure.CGet (Azure.key_of p)]))) /\
  (forall {W : Type} (U : ModuleUtils) (conn : Connection W) (p : params) (n : string)
          (s : Py.mstate W call) (w1 : W) (response : rest_response),
      rest_get conn n (vserver p) (Py.world s) = (w1, (Some response, None)) ->
      num_records response = 0%Z ->
      Utils.check_for_0_or_1_records U (Some response) None = (None, None) ->
      get_igroup U conn true p n s =
      (Py.Ret None,
       Py.MState w1 (Py.changed s) (Py.calls s ++ [Rest (RGetIgroups n (vserver p))]))) /\
  (forall {W : Type} (U : ModuleUtils) (conn : Connection W) (p : params) (n : string)
          (s : Py.mstate W call) (w1 : W) (result : na_element),
      invoke_successfully conn (ZIgroupGetIter n (vserver p)) (Py.world s)
        = (w1, inl result) ->
      get_child_content result "num-records" = Some "0" ->
      get_igroup U conn false p n s =
      (Py.Ret None,
       Py.MState w1 (Py.changed s) (Py.calls s ++ [Zapi (ZIgroupGetIter n (vserver p))]))).
Proof.
  split; [|split].
  - intros W client p s w1 msg Hget. now apply AzureFacts.get_azure_netapp_volume_absent with msg.
  - intros W U conn p n s w1 response Hget _ Hcheck.
    unfold get_igroup. now apply get_igroup_rest_absent with (Some response) None.
  - intros W U conn p n s w1 result Hget Hzero.
    apply get_igroup_zapi_absent with result; auto.
Qed.

Lemma C8_witness :
  Azure.get_azure_netapp_volume (AzureStore.client "sub") (AzureFacts.demo_params present)
    (Py.MState AzureFacts.demo_world false []) =
  (Py.Ret None,
   Py.MState AzureFacts.demo_world false
     [Azure.CGet (Azure.key_of (AzureFacts.demo_params present))]) /\
  get_igroup Helper.utils (OntapStore.conn true (9, 9, 1)%Z) true
    (demo_params present None None) "ig1" (Py.MState empty_world false []) =
  (Py.Ret None, Py.MState empty_world false [Rest (RGetIgroups "ig1" "vs1")]) /\
  get_igroup Helper.utils (OntapStore.conn false (9, 9, 1)%Z) false
    (demo_params present None None) "ig1" (Py.MState empty_world false []) =
  (Py.Ret None, Py.MState empty_world false [Zapi (ZIgroupGetIter "ig1" "vs1")]).
Proof.
  destruct C8_missing_resource_is_None as (Hazure & Hrest & Hzapi).
  split; [|split].
  - apply (Hazure _ (AzureStore.client "sub") (AzureFacts.demo_params present)
             (Py.MState AzureFacts.demo_world false []) AzureFacts.demo_world
             "ResourceNotFound").
    reflexivity.
  - apply (Hrest _ Helper.utils (OntapStore.conn true (9, 9, 1)%Z)
             (demo_params present None None) "ig1" (Py.MState empty_world false [])
             empty_world (RestResponse 0 [])); reflexivity.
  - apply (Hzapi _ Helper.utils (OntapStore.conn false (9, 9, 1)%Z)
             (demo_params present None None) "ig1" (Py.MState empty_world false [])
             empty_world (OntapStore.results [OntapStore.leaf "num-records" "0"]));
      reflexivity.
Defined.




End IgroupClaims.

(** ** The action chosen by [na_ontap_igroup] *)

Module IgroupDecision.
Import Igroup PyFacts IgroupSteps.
Local Open Scope list_scope.

Ltac decide_bools :=
  repeat match goal with
         | |- context [bool_decide ?P] =>
             first [ rewrite (bool_decide_eq_true_2 P) by (reflexivity || congruence)
                   | rewrite (bool_decide_eq_false_2 P) by (discriminate || congruence) ]
         end.

Ltac run_code :=
  repeat (progress (cbn [Utils.get_modified_attributes Utils.get_cd_action
                         Utils.is_rename_action Helper.utils
                         Helper.get_modified_attributes Helper.is_rename_action
                         Py.world Py.changed Py.calls andb negb mbind option_bind];
                    decide_bools)).

(** The branch taken in lines 521-532 for a decision. *)
Inductive action := ActCreate | ActDelete | ActRename | ActModify | ActNone.


(** The comparable fields that differ, with their desired values: the
    fields of the observed record that are also set in the desired state,
    with another value.  Over ZAPI the name is left to the rename. *)
Definition differing (c : dict) (p : params) : dict :=
  merge Helper.changed_field c (parameters p).

Definition modified (use_rest : bool) (p : params) (c : dict) : dict :=
  if use_rest then differing c p else delete "name" (differing c p).

(** The part of a modify that [validate_modify] turns down. *)
Definition rejected (use_rest : bool) (modify : dict) : dict :=
  let modify_local := delete "initiators" modify in
  if use_rest
  then filter (fun kv => rest_modify_zapi_to_rest !! kv.1 = None) modify_local
  else modify_local.

Definition context (use_rest : bool) : string :=
  if use_rest then "REST" else "ZAPI".

Lemma parameters_state p : parameters p !! "state" = Some (PStr (state_str (state p))).
Proof.
  unfold parameters, set_opt.
  destruct (bind_portset p), (initiators p), (initiator_group_type p), (os_type p),
    (from_name p); cbn [fmap option_fmap option_map]; vm_compute; reflexivity.
Qed.

Lemma parameters_initiators p : parameters p !! "initiators" = PList <$> initiators p.
Proof.
  unfold parameters, set_opt.
  destruct (bind_portset p), (initiators p), (initiator_group_type p), (os_type p),
    (from_name p); cbn [fmap option_fmap option_map]; vm_compute; reflexivity.
Qed.

Lemma parameters_name p : parameters p !! "name" = Some (PStr (name p)).
Proof.
  unfold parameters, set_opt.
  destruct (bind_portset p), (initiators p), (initiator_group_type p), (os_type p),
    (from_name p); cbn [fmap option_fmap option_map]; vm_compute; reflexivity.
Qed.

Lemma parameters_uuid p : parameters p !! "uuid" = None.
Proof.
  unfold parameters, set_opt.
  destruct (bind_portset p), (initiators p), (initiator_group_type p), (os_type p),
    (from_name p); cbn [fmap option_fmap option_map]; vm_compute; reflexivity.
Qed.

Section Decision.
Context {W : Type}.
Variable conn : Connection W.

Lemma validate_modify_spec use_rest (modify : dict) (s : Py.mstate W call) :
  validate_modify use_rest (Some modify) s =
  if bool_decide (rejected use_rest modify = ∅) then (Py.Ret tt, s)
  else (Py.Halt (FailJson (ErrModifyNotSupported (rejected use_rest modify)
                             (context use_rest))), s).
Proof.
  unfold validate_modify, rejected, report_error_in_modify, context.
  destruct (bool_decide (modify = ∅)) eqn:He.
  - apply bool_decide_eq_true_1 in He. subst modify.
    rewrite delete_empty. destruct use_rest.
    + now rewrite map_filter_empty.
    + reflexivity.
  - clear He. destruct use_rest; cbn [negb];
      match goal with |- context [bool_decide ?P] => destruct (bool_decide P) end;
      reflexivity.
Qed.

(** [uuid = current['uuid']] when the record is not empty and REST is
    used. *)
Definition uuid_of (use_rest : bool) (c : dict) : option pyval + py_exn :=
  if truthy (Some c) && use_rest then
    match c !! "uuid" with
    | Some u => inl (Some u)
    | None => inr (KeyError "uuid")
    end
  else inl None.



(** What [decide_from] comes to with the modelled helper when no igroup
    has the name, the state is present and [from_name] is given. *)
Definition decided_rename (use_rest : bool) (p : params) (from : string)
    (s : Py.mstate W call) : Py.step (X := outcome) decision * Py.mstate W call :=
  match get_igroup Helper.utils conn use_rest p from
          (Py.MState (Py.world s) true (Py.calls s)) with
  | (Py.Halt x, s1) => (Py.Halt x, s1)
  | (Py.Ret None, s1) => (Py.Halt (FailJson (ErrFromNameNotFound (Some from))), s1)
  | (Py.Ret (Some old), s1) =>
      let s' := Py.MState (Py.world s1) true (Py.calls s1) in
      let modify := modified use_rest p old in
      match uuid_of use_rest old with
      | inl uuid =>
          if bool_decide (rejected use_rest modify = ∅) then
            (Py.Ret (Decision None (if use_rest then Some false else Some true) (Some old)
                       (Some modify) uuid), s')
          else (Py.Halt (FailJson (ErrModifyNotSupported (rejected use_rest modify)
                                     (context use_rest))), s')
      | inr e => (Py.Halt (Raise e), s')
      end
  end.

Lemma decide_from_rename use_rest p from s :
  from_name p = Some from -> from <> "" -> state p = present ->
  decide_from Helper.utils conn use_rest p None s = decided_rename use_rest p from s.
Proof.
  intros Hfrom Hne Hst. unfold decide_from, decided_rename, uuid_of, modified, differing.
  unfold Py.bind at 1. unfold Py.helper at 1. cbn [Utils.get_cd_action Helper.utils].
  unfold Helper.get_cd_action. rewrite parameters_state, Hst. cbn [state_str].
  unfold nonempty. rewrite Hfrom.
  rewrite (bool_decide_eq_false_2 (from = "")) by assumption.
  unfold Py.bind at 1. run_code.
  unfold is_rename_action. rewrite Hfrom.
  unfold Py.bind at 1.
  destruct (get_igroup Helper.utils conn use_rest p from _) as [[[old|]|x] s1];
    [| |reflexivity].
  - unfold Py.bind, Py.helper, Py.ret, fail_json, raise, Py.halt.
    change (Utils.is_rename_action Helper.utils) with Helper.is_rename_action.
    run_code.
    replace (if bool_decide (merge Helper.changed_field old (parameters p) = ∅)
             then true else true) with true by (destruct (bool_decide _); reflexivity).
    destruct use_rest; run_code.
    + destruct (truthy (Some old)); run_code.
      * destruct (old !! "uuid"); run_code; [|reflexivity].
        rewrite validate_modify_spec. destruct (bool_decide (rejected _ _ = _)); reflexivity.
      * rewrite validate_modify_spec. destruct (bool_decide (rejected _ _ = _)); reflexivity.
    + rewrite andb_false_r. run_code.
      rewrite validate_modify_spec. destruct (bool_decide (rejected _ _ = _)); reflexivity.
  - unfold Py.bind, Py.helper, Py.ret, fail_json, raise, Py.halt.
    change (Utils.is_rename_action Helper.utils) with Helper.is_rename_action.
    run_code. destruct s1. reflexivity.
Qed.
End Decision.
End IgroupDecision.

(** ** The action chosen by [azure_rm_netapp_volume] *)

Module AzureDecision.
Import Azure AzureFacts.
Local Open Scope list_scope.



(** In check mode the reconciliation step sends nothing but the read. *)
Lemma reconcile_check_mode {W} (U : ModuleUtils) (netapp_client : Client W) p s :
  exists r c,
    reconcile U netapp_client p true s =
    (r, Py.MState (volumes_get netapp_client (key_of p) (Py.world s)).1 c
          (Py.calls s ++ [CGet (key_of p)])).
Proof.
  unfold reconcile, get_azure_netapp_volume.
  unfold Py.bind, Py.invoke, Py.helper, Py.get_changed, Py.ret, raise, Py.halt.
  destruct (volumes_get netapp_client (key_of p) (Py.world s)) as [w1 [v|[m|m]]];
    cbn [Py.world Py.changed Py.calls fst].
  - destruct (Utils.get_cd_action U volume (Some v) (parameters p) (Py.changed s)) as [a c].
    cbn [Py.world Py.changed Py.calls]. destruct c; eauto.
  - destruct (Utils.get_cd_action U volume None (parameters p) (Py.changed s)) as [a c].
    cbn [Py.world Py.changed Py.calls]. destruct c; eauto.
  - eauto.
Qed.
End AzureDecision.

(** ** Action selection *)

Module ActionSelection.
Import Igroup PyFacts IgroupSteps IgroupDecision.
Local Open Scope list_scope.


(** A field is in [differing] exactly when both sides have it, with values
    that are not the same; it comes with the desired value. *)
Lemma differing_lookup c p k v :
  differing c p !! k = Some v <->
  exists old, c !! k = Some old /\ parameters p !! k = Some v /\
              Helper.same_value old v = false.
Proof.
  unfold differing. rewrite lookup_merge.
  destruct (c !! k) as [old|], (parameters p !! k) as [d|]; cbn.
  - unfold Helper.changed_field. destruct (Helper.same_value old d) eqn:Hs.
    + split; [discriminate|]. intros (old' & [= <-] & [= <-] & H). congruence.
    + split.
      * intros [= <-]. eauto.
      * intros (old' & [= <-] & [= <-] & H). reflexivity.
  - split; [discriminate|]. intros (old' & _ & H & _). discriminate.
  - split; [discriminate|]. intros (old' & H & _). discriminate.
  - split; [discriminate|]. intros (old' & H & _). discriminate.
Qed.








End ActionSelection.

(** ** Rename *)

Module Rename.
Import Igroup PyFacts IgroupCalls IgroupSteps IgroupDecision ActionSelection.
Local Open Scope list_scope.

(** A call that creates or deletes an igroup. *)
Definition creates_or_deletes (c : call) : bool :=
  match c with
  | Zapi (ZIgroupCreate _ _ _ _) | Zapi (ZIgroupDestroy _ _)
  | Rest (RPostIgroups _) | Rest (RDeleteIgroup _ _) => true
  | _ => false
  end.

Section Rename.
Context {W : Type}.
Variable U : ModuleUtils.
Variable conn : Connection W.

(** A record returned by [get_igroup] has its list of initiators. *)
Lemma get_igroup_rest_initiators p n s c s' :
  get_igroup_rest U conn p n s = (Py.Ret (Some c), s') ->
  exists l, c !! "initiators" = Some (PList l).
Proof.
  unfold get_igroup_rest, Py.bind, Py.invoke, fail_on_error, fail_json, raise, Py.halt, Py.ret.
  destruct (rest_get conn n (vserver p) (Py.world s)) as [w1 [response error]].
  destruct (Utils.check_for_0_or_1_records U response error) as [igroup [e|]];
    [discriminate|].
  destruct igroup as [ig|]; [|discriminate].
  destruct (r_name ig), (r_uuid ig), (r_svm_name ig), (r_os_type ig), (r_protocol ig);
    try discriminate.
  destruct (r_initiators ig) as [items|].
  - destruct (mapM id items) as [names|]; [|discriminate].
    intros [= <- _]. exists names. apply lookup_insert_eq.
  - intros [= <- _]. exists []. apply lookup_insert_eq.
Qed.

Lemma zapi_attrs_initiators (igroup_info : na_element) (l : list string) attrs :
  Forall (fun ap => ap.2 <> "initiators") attrs ->
  forall current : dict,
    current !! "initiators" = Some (PList l) ->
    foldl (fun (current : dict) '(attr, param) =>
             match get_child_content igroup_info attr with
             | Some value => <[param := PStr value]> current
             | None => current
             end) current attrs !! "initiators" = Some (PList l).
Proof.
  induction 1 as [|[attr param] attrs Hne _ IH]; intros current Hc; cbn [foldl].
  - exact Hc.
  - apply IH. destruct (get_child_content igroup_info attr); [|exact Hc].
    rewrite lookup_insert_ne; [exact Hc|exact Hne].
Qed.

Lemma get_igroup_initiators use_rest p n s c s' :
  get_igroup U conn use_rest p n s = (Py.Ret (Some c), s') ->
  exists l, c !! "initiators" = Some (PList l).
Proof.
  unfold get_igroup. destruct use_rest; [apply get_igroup_rest_initiators|].
  unfold server_invoke, Py.bind, Py.invoke, fail_json, raise, Py.halt, Py.ret.
  destruct (invoke_successfully conn _ (Py.world s)) as [w1 [result|error]];
    [|discriminate].
  cbn [Py.world Py.changed Py.calls].
  destruct (get_child_by_name result "num-records") as [nr|].
  - destruct (get_child_content result "num-records") as [t|]; [|discriminate].
    destruct (int t) as [z|]; [|discriminate].
    destruct (bool_decide (1 <= z)%Z); [|discriminate].
    destruct (get_child_by_name result "attributes-list") as [igroup_info|]; [|discriminate].
    destruct (get_child_by_name igroup_info "initiator-group-info") as [info|];
      [|discriminate].
    destruct (get_child_by_name info "initiators") as [ch|].
    + destruct (get_children ch) as [|e l]; [discriminate|].
      destruct (initiator_names (e :: l) _) as [[names|x] s2]; [|discriminate].
      intros [= <- _]. exists names.
      apply (zapi_attrs_initiators igroup_info names zapi_to_params);
        [|apply lookup_insert_eq].
      repeat constructor; discriminate.
    + intros [= <- _]. exists [].
      apply (zapi_attrs_initiators igroup_info [] zapi_to_params);
        [|apply lookup_insert_eq].
      repeat constructor; discriminate.
  - discriminate.
Qed.

Lemma patch_body_name (m : dict) : patch_body m !! "name" = m !! "name".
Proof.
  unfold patch_body. cbn [foldr rest_modify_options]. unfold set_opt.
  destruct (m !! "bind_portset"), (m !! "name"), (m !! "os_type");
    repeat first [ rewrite lookup_insert_eq | rewrite lookup_insert_ne by discriminate
                 | rewrite lookup_empty ]; reflexivity.
Qed.

Lemma rejected_none_supported (m : dict) :
  rejected true m = ∅ ->
  filter (fun option => rest_modify_zapi_to_rest !! option = None)
         (fst <$> map_to_list (delete "initiators" m)) = [].
Proof.
  unfold rejected. intros Hrej.
  destruct (filter _ (fst <$> _)) as [|k l] eqn:Hf; [reflexivity|exfalso].
  assert (Hk : k ∈ filter (fun option => rest_modify_zapi_to_rest !! option = None)
                   (fst <$> map_to_list (delete "initiators" m)))
    by (rewrite Hf; apply list_elem_of_here).
  apply list_elem_of_filter in Hk as [Hnone Hk].
  apply list_elem_of_fmap in Hk as ([k' v] & -> & Hkv).
  apply elem_of_map_to_list in Hkv.
  assert (Hin : filter (fun kv : string * pyval => rest_modify_zapi_to_rest !! kv.1 = None)
                  (delete "initiators" m) !! k' = Some v)
    by (apply map_lookup_filter_Some; split; assumption).
  rewrite Hrej, lookup_empty in Hin. discriminate.
Qed.

(** Over REST, a modify that holds the name and passed [validate_modify]
    ends in a PATCH of that name. *)
Lemma patch_calls_name uuid (m : dict) v :
  m !! "name" = Some v -> rejected true m = ∅ ->
  patch_calls uuid (delete "initiators" <$> Some m) =
    [Rest (RPatchIgroup uuid (patch_body (delete "initiators" m)))] /\
  patch_body (delete "initiators" m) !! "name" = Some v.
Proof.
  intros Hname Hrej.
  assert (Hname' : delete "initiators" m !! "name" = Some v)
    by (rewrite lookup_delete_ne by discriminate; exact Hname).
  assert (Hbody : patch_body (delete "initiators" m) !! "name" = Some v)
    by (rewrite patch_body_name; exact Hname').
  split; [|exact Hbody].
  unfold patch_calls. cbn [fmap option_fmap option_map default truthy].
  rewrite bool_decide_eq_false_2; cbn [negb].
  - unfold id. rewrite rejected_none_supported by assumption.
    rewrite bool_decide_eq_false_2; [reflexivity|].
    intros He. rewrite He, lookup_empty in Hbody. discriminate.
  - intros He. rewrite He, lookup_empty in Hname'. discriminate.
Qed.

Lemma Forall_remove_calls use_rest p uuid (l : list string) :
  Forall (fun c => creates_or_deletes c = false) (map (remove_call use_rest p uuid) l).
Proof.
  apply Forall_forall. intros c Hc. apply list_elem_of_fmap in Hc as (i & -> & _).
  unfold remove_call. destruct use_rest; reflexivity.
Qed.

Lemma Forall_add_expected use_rest p uuid (l : list string) :
  Forall (fun c => creates_or_deletes c = false) (add_expected use_rest p uuid l).
Proof.
  unfold add_expected, add_calls.
  destruct (initiators p) as [desired|]; [|constructor].
  destruct (bool_decide (desired = [""])); [constructor|].
  destruct (use_rest && bool_decide (is_Some uuid)).
  - destruct (bool_decide _); repeat constructor.
  - apply Forall_forall. intros c Hc. apply list_elem_of_fmap in Hc as (i & -> & _).
    reflexivity.
Qed.

Lemma Forall_patch_calls uuid modify :
  Forall (fun c => creates_or_deletes c = false) (patch_calls uuid modify).
Proof.
  unfold patch_calls. destruct (truthy modify); [|constructor].
  destruct (filter _ _); [|constructor].
  destruct (bool_decide _); repeat constructor.
Qed.

Lemma Forall_modify_calls use_rest p d :
  Forall (fun c => creates_or_deletes c = false) (modify_calls use_rest p d).
Proof.
  unfold modify_calls. destruct (truthy (d_modify d)); [|constructor].
  destruct (d_current d ≫= _) as [[| | |l]|]; try constructor.
  repeat apply Forall_app_2.
  - apply Forall_remove_calls.
  - apply Forall_add_expected.
  - apply Forall_patch_calls.
Qed.

Lemma Forall_rename_calls use_rest p :
  Forall (fun c => creates_or_deletes c = false) (rename_calls use_rest p).
Proof.
  unfold rename_calls. destruct use_rest; [constructor|].
  destruct (from_name p); repeat constructor.
Qed.
End Rename.

Lemma Forall_prefix {A} (P : A -> Prop) (l1 l2 : list A) :
  l1 `prefix_of` l2 -> Forall P l2 -> Forall P l1.
Proof. intros [k ->] H. now apply Forall_app in H as [H _]. Qed.

Lemma uuid_of_rest (old : dict) uuid :
  uuid_of true old = inl uuid -> uuid = old !! "uuid".
Proof.
  unfold uuid_of, truthy. rewrite andb_true_r.
  destruct (bool_decide (old = ∅)) eqn:He; cbn [negb].
  - apply bool_decide_eq_true_1 in He. subst old. intros [= <-]. now rewrite lookup_empty.
  - destruct (old !! "uuid"); [now intros [= <-]|discriminate].
Qed.

(** The execution of a decision to rename. *)
Lemma rename_execute {W} (conn : Connection W) use_rest p check_mode from
    (old : dict) uuid (s' : Py.mstate W call) :
  from_name p = Some from ->
  Py.changed s' = true ->
  rejected use_rest (modified use_rest p old) = ∅ ->
  uuid_of use_rest old = inl uuid ->
  (exists l, old !! "initiators" = Some (PList l)) ->
  let d := Decision None (if use_rest then Some false else Some true) (Some old)
             (Some (modified use_rest p old)) uuid in
  let run := execute conn use_rest p check_mode d s' in
  exists sent,
    Py.calls run.2 = Py.calls s' ++ sent /\
    Forall (fun c => creates_or_deletes c = false) sent /\
    forall chg cur md,
      run.1 = Py.Halt (ExitJson chg cur md) ->
      chg = true /\ cur = Some old /\
      if check_mode then sent = []
      else if use_rest then
        forall n, old !! "name" = Some (PStr n) -> n <> name p ->
          exists body,
            last sent = Some (Rest (RPatchIgroup (old !! "uuid") body)) /\
            body !! "name" = Some (PStr (name p))
      else head sent = Some (Zapi (ZIgroupRename from (name p))).
Proof.
  intros Hfrom Hch Hrej Huuid [l Hl] d run.
  assert (Hexp : Forall (fun c => creates_or_deletes c = false)
                   (action_calls use_rest p d ++ modify_calls use_rest p d)).
  { apply Forall_app_2; [|apply Forall_modify_calls].
    unfold action_calls, d. cbn [d_rename d_cd_action].
    destruct use_rest; decide_bools; [constructor|apply Forall_rename_calls]. }
  destruct check_mode.
  - exists []. subst run. rewrite execute_dry by (rewrite Hch; reflexivity).
    cbn [fst snd]. rewrite app_nil_r. split; [reflexivity|]. split; [constructor|].
    intros chg cur md [= <- <- <-]. rewrite Hch. auto.
  - subst run. rewrite execute_perform by auto.
    destruct (sends_perform conn use_rest p d s') as (sent & Hc & Hp & Hchg & Hr & Hf).
    destruct (perform conn use_rest p d s') as [[md'|x] s3]; cbn [fst snd] in *.
    + exists sent. split; [exact Hc|]. specialize (Hr md' eq_refl). subst sent.
      split; [exact Hexp|].
      intros chg cur md [= <- <- <-]. split; [congruence|]. split; [reflexivity|].
      destruct use_rest.
      * intros n Hn Hnp.
        assert (Hname : modified true p old !! "name" = Some (PStr (name p))).
        { unfold modified. apply differing_lookup. exists (PStr n).
          split; [exact Hn|]. split; [apply parameters_name|].
          unfold Helper.same_value. apply bool_decide_eq_false_2. congruence. }
        destruct (patch_calls_name (old !! "uuid") _ _ Hname Hrej) as [Hpatch Hbody].
        exists (patch_body (delete "initiators" (modified true p old))).
        split; [|exact Hbody].
        unfold action_calls, modify_calls, d.
        cbn [d_rename d_cd_action d_modify d_current d_uuid mbind option_bind].
        decide_bools. cbn [app].
        replace (truthy (Some (modified true p old))) with true.
        2:{ symmetry. unfold truthy. apply negb_true_iff, bool_decide_eq_false_2.
            intros He. rewrite He, lookup_empty in Hname. discriminate. }
        rewrite Hl. rewrite (uuid_of_rest old uuid Huuid). rewrite Hpatch.
        rewrite app_assoc. apply last_snoc.
      * unfold action_calls, rename_calls, d. cbn [d_rename]. decide_bools.
        rewrite Hfrom. reflexivity.
    + exists sent. split; [exact Hc|]. split; [now apply (Forall_prefix _ _ _ Hp)|].
      intros chg cur md [= ->]. destruct (Hf _ eq_refl).
Qed.

(** C3. When no igroup has the name, the state is present and [from_name]
    is given (a non-empty string), the igroup named [from_name] is looked
    up.  If there is none either, the run fails with an error.  If there is
    one, the run sends no call that creates or deletes an igroup; when it
    exits it reports a change and the igroup found under [from_name] as
    current, with its uuid; outside check mode the rename has been sent:
    over ZAPI as the first call, an igroup-rename from [from_name] to
    [name]; over REST as the last call, a PATCH of the igroup with the old
    uuid that sets the name, after the initiators have been updated.  In
    check mode nothing is sent. *)
Theorem C3_rename_instead_of_create :
  forall {W : Type} (conn : Connection W) (use_rest : bool) (p : params)
         (check_mode : bool) (s s1 : Py.mstate W call) (from : string),
    from_name p = Some from -> from <> "" -> state p = present ->
    observe Helper.utils conn use_rest p s = (Py.Ret None, s1) ->
    let run := apply Helper.utils conn use_rest p check_mode s in
    match get_igroup Helper.utils conn use_rest p from
            (Py.MState (Py.world s1) true (Py.calls s1)) with
    | (Py.Halt x, s2) => run = (Py.Halt x, s2)
    | (Py.Ret None, s2) =>
        run.1 = Py.Halt (FailJson (ErrFromNameNotFound (Some from)))
    | (Py.Ret (Some old), s2) =>
        exists sent,
          Py.calls run.2 = Py.calls s2 ++ sent /\
          Forall (fun c => creates_or_deletes c = false) sent /\
          forall chg cur md,
            run.1 = Py.Halt (ExitJson chg cur md) ->
            chg = true /\ cur = Some old /\
            if check_mode then sent = []
            else if use_rest then
              forall n, old !! "name" = Some (PStr n) -> n <> name p ->
                exists body,
                  last sent = Some (Rest (RPatchIgroup (old !! "uuid") body)) /\
                  body !! "name" = Some (PStr (name p))
            else head sent = Some (Zapi (ZIgroupRename from (name p)))
    end.
Proof.
  intros W conn use_rest p check_mode s s1 from Hfrom Hne Hst Hobs run.
  assert (Hrun : run =
                 Py.bind (decide_from Helper.utils conn use_rest p None)
                   (execute conn use_rest p check_mode) s1).
  { unfold run. rewrite apply_steps. unfold Py.bind at 1. now rewrite Hobs. }
  clearbody run. subst run. unfold Py.bind.
  rewrite (decide_from_rename conn use_rest p from s1 Hfrom Hne Hst).
  unfold decided_rename.
  destruct (get_igroup Helper.utils conn use_rest p from _) as [[[old|]|x] s2] eqn:Hget;
    [| reflexivity | reflexivity].
  destruct (Rename.get_igroup_initiators _ _ _ _ _ _ _ _ Hget) as [l Hl].
  destruct (uuid_of use_rest old) as [uuid|e] eqn:Huuid.
  - destruct (bool_decide (rejected use_rest (modified use_rest p old) = ∅)) eqn:Hrej.
    + apply bool_decide_eq_true_1 in Hrej.
      apply (rename_execute conn use_rest p check_mode from old uuid
               (Py.MState (Py.world s2) true (Py.calls s2))); eauto.
    + exists []. cbn [fst snd Py.calls]. rewrite app_nil_r.
      split; [reflexivity|]. split; [constructor|]. discriminate.
  - exists []. cbn [fst snd Py.calls]. rewrite app_nil_r.
    split; [reflexivity|]. split; [constructor|]. discriminate.
Qed.
End Rename.

(** ** Further properties of [azure_rm_netapp_volume] *)

Module AzureExtras.
Import Azure AzureFacts.
Local Open Scope list_scope.



Section Calls.
Context {W : Type}.
Variable U : ModuleUtils.
Variable netapp_client : Client W.
Variable p : params.

(** The calls of [create_azure_netapp_volume] and of
    [delete_azure_netapp_volume]: at most the one request. *)
Lemma create_calls s :
  Py.calls (create_azure_netapp_volume netapp_client p s).2 = Py.calls s \/
  exists b,
    Py.calls (create_azure_netapp_volume netapp_client p s).2 =
    Py.calls s ++ [CCreateOrUpdate b (key_of p)].
Proof.
  unfold create_azure_netapp_volume, required, raise, fail_json.
  unfold Py.bind, Py.ret, Py.halt, Py.invoke.
  destruct (virtual_network p); [|now left].
  destruct (subnet_name p); [|now left].
  destruct (location p); [|now left].
  destruct (file_path p); [|now left].
  right. eexists.
  destruct (volumes_create_or_update netapp_client _ (key_of p) (Py.world s))
    as [w1 [result|e]]; cbn [Py.world Py.changed Py.calls].
  - destruct (wait result); reflexivity.
  - reflexivity.
Qed.

Lemma delete_calls s :
  Py.calls (delete_azure_netapp_volume netapp_client p s).2 =
  Py.calls s ++ [CDelete (key_of p)].
Proof.
  unfold delete_azure_netapp_volume, raise, fail_json.
  unfold Py.bind, Py.ret, Py.halt, Py.invoke.
  destruct (volumes_delete netapp_client (key_of p) (Py.world s)) as [w1 [result|e]];
    cbn [Py.world Py.changed Py.calls].
  - destruct (wait result) as [[m|m]|]; reflexivity.
  - destruct e; reflexivity.
Qed.

(** The request of the reconciliation step, if any. *)
Definition one_request (check_mode : bool) (mut : list call) : Prop :=
  mut = [] \/
  (check_mode = false /\
   ((exists b, mut = [CCreateOrUpdate b (key_of p)]) \/ mut = [CDelete (key_of p)])).

Lemma reconcile_calls check_mode s :
  exists mut,
    Py.calls (reconcile U netapp_client p check_mode s).2 =
    Py.calls s ++ [CGet (key_of p)] ++ mut /\
    one_request check_mode mut.
Proof.
  unfold reconcile, get_azure_netapp_volume.
  unfold Py.bind at 1. unfold Py.bind at 1. unfold Py.invoke.
  destruct (volumes_get netapp_client (key_of p) (Py.world s)) as [w1 answer].
  set (s0 := Py.MState w1 (Py.changed s) (Py.calls s ++ [CGet (key_of p)])).
  assert (Hnone : forall r : Py.step (X := outcome) unit * Py.mstate W call,
             Py.calls r.2 = Py.calls s0 ->
             exists mut, Py.calls r.2 = Py.calls s ++ [CGet (key_of p)] ++ mut /\
                         one_request check_mode mut).
  { intros r Hr. exists []. rewrite app_nil_r. split; [exact Hr|now left]. }
  assert (Hmain : forall current,
             exists mut,
               Py.calls
                 ((Py.bind (Py.helper (Utils.get_cd_action U volume current (parameters p)))
                     (fun cd_action =>
                        Py.bind Py.get_changed
                          (fun changed =>
                             if changed then
                               if check_mode then Py.ret tt
                               else match cd_action with
                                    | Some Create => create_azure_netapp_volume netapp_client p
                                    | Some Delete => delete_azure_netapp_volume netapp_client p
                                    | None => Py.ret tt
                                    end
                             else Py.ret tt))) s0).2 =
               Py.calls s ++ [CGet (key_of p)] ++ mut /\ one_request check_mode mut).
  { intros current. unfold Py.bind, Py.helper, Py.get_changed, Py.ret.
    destruct (Utils.get_cd_action U volume current (parameters p) (Py.changed s0)) as [a c].
    cbn [Py.world Py.changed Py.calls].
    set (s1 := Py.MState (Py.world s0) c (Py.calls s0)).
    destruct c; [|apply Hnone; reflexivity].
    destruct check_mode; [apply Hnone; reflexivity|].
    destruct a as [[]|]; [| |apply Hnone; reflexivity].
    - destruct (create_calls s1) as [Hc|[b Hc]].
      + apply Hnone. exact Hc.
      + exists [CCreateOrUpdate b (key_of p)]. split.
        * rewrite Hc. cbn. now rewrite <- app_assoc.
        * right. split; [reflexivity|]. left. eauto.
    - exists [CDelete (key_of p)]. split.
      + rewrite delete_calls. cbn. now rewrite <- app_assoc.
      + right. split; [reflexivity|]. now right. }
  destruct answer as [v|[m|m]].
  - apply Hmain.
  - apply Hmain.
  - apply Hnone. reflexivity.
Qed.
End Calls.

(** X2. Whatever the helper decides and whatever the SDK answers, a run
    sends its calls in this order: the read of the volume, at most one
    request (a create or a delete, never both, and none in check mode),
    and, only with state present, one more read.  Every call addresses the
    volume named by the options. *)
Theorem X2_one_request_between_reads :
  forall {W : Type} (U : ModuleUtils) (netapp_client : Client W) (p : params)
         (check_mode : bool) (w : W),
    exists mut reread,
      (run U netapp_client p check_mode w).2 = [CGet (key_of p)] ++ mut ++ reread /\
      (mut = [] \/
       (check_mode = false /\
        ((exists b, mut = [CCreateOrUpdate b (key_of p)]) \/ mut = [CDelete (key_of p)]))) /\
      (reread = [] \/ (state p = present /\ reread = [CGet (key_of p)])).
Proof.
  intros W U netapp_client p check_mode w. unfold run.
  rewrite exec_module_reconcile.
  destruct (reconcile_calls U netapp_client p check_mode (Py.MState w false []))
    as (mut & Hc & Hmut).
  cbn [Py.calls app] in Hc.
  destruct (reconcile U netapp_client p check_mode (Py.MState w false []))
    as [[[]|x] s1]; cbn [snd] in Hc.
  - destruct (decide (state p = present)) as [Hst|Hst].
    + destruct (volumes_get netapp_client (key_of p) (Py.world s1)) as [w2 answer].
      cbn [snd Py.calls]. exists mut, [CGet (key_of p)]. rewrite Hc.
      split; [reflexivity|]. split; [exact Hmut|]. right. auto.
    + cbn [snd]. exists mut, []. rewrite Hc, app_nil_r. split; [reflexivity|].
      split; [exact Hmut|]. now left.
  - cbn [snd]. exists mut, []. rewrite Hc, app_nil_r. split; [reflexivity|].
    split; [exact Hmut|]. now left.
Qed.

(** X3. In check mode with state present, when the volume does not exist
    (the SDK raises [CloudError] for the read, and reading leaves the remote
    system as it is), the run does not report the change it would make: it
    ends with the error that the volume was created but cannot be found,
    having sent the read twice and nothing else.  This holds whatever the
    helper decides. *)
Theorem X3_check_mode_create_cannot_be_found :
  forall {W : Type} (U : ModuleUtils) (netapp_client : Client W) (p : params)
         (w : W) (msg : string),
    state p = present ->
    volumes_get netapp_client (key_of p) w = (w, inr (CloudError msg)) ->
    run U netapp_client p true w =
    (FailJson (ErrCannotBeFound (name p)), w, [CGet (key_of p); CGet (key_of p)]).
Proof.
  intros W U netapp_client p w msg Hst Hget. unfold run.
  rewrite exec_module_reconcile.
  unfold reconcile, get_azure_netapp_volume.
  unfold Py.bind, Py.invoke, Py.helper, Py.get_changed, Py.ret.
  cbn [Py.world Py.changed Py.calls]. rewrite Hget.
  cbn [Py.world Py.changed Py.calls].
  destruct (Utils.get_cd_action U volume None (parameters p) false) as [a c].
  cbn [Py.world Py.changed Py.calls].
  destruct c; cbn [Py.world Py.changed Py.calls];
    (destruct (decide (state p = present)); [|contradiction]);
    rewrite Hget; reflexivity.
Qed.

Lemma X3_witness :
  run Helper.utils (AzureStore.client "sub") (demo_params present) true demo_world =
  (FailJson (ErrCannotBeFound "vol1"), demo_world,
   [CGet (key_of (demo_params present)); CGet (key_of (demo_params present))]).
Proof.
  apply (X3_check_mode_create_cannot_be_found Helper.utils (AzureStore.client "sub")
           (demo_params present) demo_world "ResourceNotFound"); reflexivity.
Defined.
End AzureExtras.

(** ** Further properties of [na_ontap_igroup]: lookups and validation *)

Module IgroupExtras.
Import Igroup PyFacts IgroupCalls IgroupSteps IgroupDecision IgroupDemo.
Local Open Scope list_scope.

(** X4. Whatever the helpers and the connection, over REST and over ZAPI,
    a record returned by [get_igroup] has the key [initiators], holding a
    list (the empty list when the answer lists none): reading
    [current['initiators']] in [apply] cannot fail for such a record. *)
Theorem X4_get_igroup_has_initiators :
  forall {W : Type} (U : ModuleUtils) (conn : Connection W) (use_rest : bool)
         (p : params) (n : string) (s s' : Py.mstate W call) (c : dict),
    get_igroup U conn use_rest p n s = (Py.Ret (Some c), s') ->
    exists l,
      c !! "initiators" = Some (PList l) /\
      forall s'' : Py.mstate W call,
        current_initiators (Some c) s'' = (Py.Ret l, s'').
Proof.
  intros W U conn use_rest p n s s' c Hget.
  destruct (Rename.get_igroup_initiators U conn use_rest p n s c s' Hget) as [l Hl].
  exists l. split; [exact Hl|]. intros s''. unfold current_initiators. now rewrite Hl.
Qed.

Lemma X4_witness :
  exists l,
    observed_rest_ig1 !! "initiators" = Some (PList l) /\
    forall s'' : Py.mstate OntapStore.world call,
      current_initiators (Some observed_rest_ig1) s'' = (Py.Ret l, s'').
Proof.
  apply (X4_get_igroup_has_initiators Helper.utils (OntapStore.conn true (9, 9, 1)%Z) true
           (demo_params present None None) "ig1"
           (Py.MState (world_with "ig1") false [])
           (Py.MState (world_with "ig1") false [Rest (RGetIgroups "ig1" "vs1")])).
  vm_compute. reflexivity.
Defined.

Lemma get_child_content_other (e : na_element) (tag attr : string) :
  Forall (fun c => get_tag c = tag) (get_children e) -> attr <> tag ->
  get_child_content e attr = None.
Proof.
  intros Hall Hne. unfold get_child_content, get_child_by_name.
  induction Hall as [|c l Hc _ IH]; [reflexivity|].
  cbn [List.find]. rewrite bool_decide_eq_false_2 by congruence. exact IH.
Qed.

(** X5. Over ZAPI, [get_igroup] reads the vserver, the OS type, the portset
    and the igroup type from the children of [attributes-list], where the
    reply has only [initiator-group-info] elements, and not from inside
    that element.  So for such a reply the record returned holds the
    initiators and nothing else: no [os_type], [initiator_group_type],
    [bind_portset], [vserver] or [name] to compare with the desired
    state. *)
Theorem X5_zapi_record_has_only_initiators :
  forall {W : Type} (U : ModuleUtils) (conn : Connection W) (p : params) (n : string)
         (s s' : Py.mstate W call) (w1 : W) (result igroup_info : na_element) (c : dict),
    invoke_successfully conn (ZIgroupGetIter n (vserver p)) (Py.world s) = (w1, inl result) ->
    get_child_by_name result "attributes-list" = Some igroup_info ->
    Forall (fun e => get_tag e = "initiator-group-info") (get_children igroup_info) ->
    get_igroup U conn false p n s = (Py.Ret (Some c), s') ->
    exists l, c = {[ "initiators" := PList l ]}.
Proof.
  intros W U conn p n s s' w1 result igroup_info c Hinv Hattrs Hall.
  unfold get_igroup, server_invoke, Py.bind, Py.invoke, fail_json, raise, Py.halt, Py.ret.
  rewrite Hinv. cbn [Py.world Py.changed Py.calls].
  destruct (get_child_by_name result "num-records") as [nr|]; [|discriminate].
  destruct (get_child_content result "num-records") as [t|]; [|discriminate].
  destruct (int t) as [z|]; [|discriminate].
  destruct (bool_decide (1 <= z)%Z); [|discriminate].
  rewrite Hattrs.
  destruct (get_child_by_name igroup_info "initiator-group-info") as [info|];
    [|discriminate].
  assert (Hnone : forall attr, attr <> "initiator-group-info" ->
                               get_child_content igroup_info attr = None)
    by (intros attr Hne; now apply get_child_content_other with "initiator-group-info").
  unfold zapi_to_params. cbn [foldl].
  rewrite !Hnone by discriminate.
  destruct (get_child_by_name info "initiators") as [ch|].
  - destruct (get_children ch) as [|e l]; [discriminate|].
    destruct (initiator_names (e :: l) _) as [[names|x] s2]; [|discriminate].
    intros [= <- _]. exists names. reflexivity.
  - intros [= <- _]. exists []. reflexivity.
Qed.

Lemma X5_witness :
  exists l,
    ({[ "initiators" := PList ["iqn.b"; "iqn.c"] ]} : dict) = {[ "initiators" := PList l ]}.
Proof.
  apply (X5_zapi_record_has_only_initiators Helper.utils (OntapStore.conn false (9, 9, 1)%Z)
           (demo_params present None None) "ig1"
           (Py.MState (world_with "ig1") false [])
           (Py.MState (world_with "ig1") false [Zapi (ZIgroupGetIter "ig1" "vs1")])
           (world_with "ig1")
           (OntapStore.results
              [OntapStore.leaf "num-records" "1";
               NaElement "attributes-list" None
                 [OntapStore.igroup_info "ig1" (world_with "ig1") g0]])
           (NaElement "attributes-list" None
              [OntapStore.igroup_info "ig1" (world_with "ig1") g0])).
  - reflexivity.
  - reflexivity.
  - repeat constructor.
  - vm_compute. reflexivity.
Defined.

(** The options [validate_modify] lets through: the initiators, and over
    REST the options that a PATCH can set. *)
Definition allowed_key (use_rest : bool) (k : string) : Prop :=
  k = "initiators" \/
  (use_rest = true /\ (k = "bind_portset" \/ k = "name" \/ k = "os_type")).

Lemma rest_option_unknown (k : string) :
  rest_modify_zapi_to_rest !! k = None <->
  k <> "bind_portset" /\ k <> "name" /\ k <> "os_type".
Proof.
  unfold rest_modify_zapi_to_rest, rest_modify_options.
  cbn [list_to_map foldr uncurry fst snd].
  rewrite !lookup_insert_None, lookup_empty. intuition congruence.
Qed.

Lemma rejected_lookup use_rest (m : dict) k v :
  rejected use_rest m !! k = Some v <-> m !! k = Some v /\ ~ allowed_key use_rest k.
Proof.
  unfold rejected, allowed_key. destruct use_rest.
  - rewrite map_lookup_filter_Some, lookup_delete_Some. cbn [fst].
    rewrite rest_option_unknown. intuition congruence.
  - rewrite lookup_delete_Some. intuition congruence.
Qed.

Lemma rejected_empty use_rest (m : dict) :
  rejected use_rest m = ∅ <-> forall k, is_Some (m !! k) -> allowed_key use_rest k.
Proof.
  split.
  - intros He k [v Hk]. destruct (decide (k = "initiators")) as [->|Hi]; [now left|].
    destruct use_rest.
    + destruct (rest_modify_zapi_to_rest !! k) eqn:Ht.
      * right. split; [reflexivity|].
        destruct (decide (k = "bind_portset")) as [|H1]; [tauto|].
        destruct (decide (k = "name")) as [|H2]; [tauto|].
        destruct (decide (k = "os_type")) as [|H3]; [tauto|].
        assert (rest_modify_zapi_to_rest !! k = None) by (apply rest_option_unknown; auto).
        congruence.
      * exfalso. assert (Hr : rejected true m !! k = Some v).
        { apply rejected_lookup. split; [exact Hk|]. unfold allowed_key.
          apply rest_option_unknown in Ht. intuition congruence. }
        rewrite He, lookup_empty in Hr. discriminate.
    + exfalso. assert (Hr : rejected false m !! k = Some v).
      { apply rejected_lookup. split; [exact Hk|]. unfold allowed_key.
        intuition congruence. }
      rewrite He, lookup_empty in Hr. discriminate.
  - intros Hall. apply map_empty. intros k.
    destruct (rejected use_rest m !! k) as [v|] eqn:Hr; [|reflexivity].
    apply rejected_lookup in Hr as [Hk Hno]. exfalso. apply Hno, Hall. eauto.
Qed.

(** X6. [validate_modify] lets a modify through exactly when each of its
    options is [initiators] or, over REST only, one of [bind_portset],
    [name] and [os_type]; the empty modify always passes.  Otherwise it
    fails with the error that names exactly the other options, with their
    desired values, and the context (ZAPI or REST).  It sends nothing. *)
Theorem X6_validate_modify_accepts :
  forall {W : Type} (use_rest : bool) (modify : dict) (s : Py.mstate W call),
    (validate_modify use_rest (Some modify) s = (Py.Ret tt, s) <->
     forall k, is_Some (modify !! k) -> allowed_key use_rest k) /\
    (validate_modify use_rest (Some modify) s = (Py.Ret tt, s) \/
     exists r,
       validate_modify use_rest (Some modify) s =
       (Py.Halt (FailJson (ErrModifyNotSupported r (if use_rest then "REST" else "ZAPI"))), s) /\
       forall k v, r !! k = Some v <-> modify !! k = Some v /\ ~ allowed_key use_rest k).
Proof.
  intros W use_rest modify s. rewrite validate_modify_spec.
  destruct (bool_decide (rejected use_rest modify = ∅)) eqn:Hr.
  - apply bool_decide_eq_true_1 in Hr. split; [|now left].
    split; [intros _; now apply rejected_empty|reflexivity].
  - apply bool_decide_eq_false_1 in Hr. split.
    + split; [discriminate|]. intros Hall. exfalso. now apply Hr, rejected_empty.
    + right. exists (rejected use_rest modify). split; [reflexivity|].
      intros k v. apply rejected_lookup.
Qed.

Lemma patch_body_lookup (m : dict) (k : string) :
  patch_body m !! k =
  if decide (k = "portset") then m !! "bind_portset"
  else if decide (k = "name") then m !! "name"
  else if decide (k = "os_type") then m !! "os_type"
  else None.
Proof.
  unfold patch_body. cbn [foldr rest_modify_options]. unfold set_opt.
  destruct (decide (k = "portset")) as [->|H1];
    [|destruct (decide (k = "name")) as [->|H2];
      [|destruct (decide (k = "os_type")) as [->|H3]]];
    destruct (m !! "bind_portset"), (m !! "name"), (m !! "os_type");
    repeat first [ rewrite lookup_insert_eq
                 | rewrite lookup_insert_ne by (discriminate || congruence)
                 | rewrite lookup_empty ];
    reflexivity.
Qed.

(** X7. A modify that [validate_modify] has let through is never turned
    down by [modify_igroup_rest].  Over REST, once [initiators] is popped,
    the options left are sent in one PATCH under their REST names
    ([bind_portset] as [portset], [name], [os_type]) and nothing else is in
    the body; no PATCH is sent when none is left; an error of the PATCH
    ends the run.  Over ZAPI nothing is left once [initiators] is popped,
    so line 531 never reaches the PATCH. *)
Theorem X7_validated_modify_is_patched :
  forall {W : Type} (conn : Connection W) (uuid : option pyval) (m : dict)
         (s s0 : Py.mstate W call),
    (validate_modify true (Some m) s0 = (Py.Ret tt, s0) ->
     let body := patch_body (delete "initiators" m) in
     (body !! "portset" = m !! "bind_portset" /\
      body !! "name" = m !! "name" /\
      body !! "os_type" = m !! "os_type") /\
     (forall k, is_Some (body !! k) -> k = "portset" \/ k = "name" \/ k = "os_type") /\
     modify_igroup_rest conn uuid (delete "initiators" m) s =
     if bool_decide (body = ∅) then (Py.Ret tt, s)
     else
       let '(w1, error) := rest_send conn (RPatchIgroup uuid body) (Py.world s) in
       (match error with
        | None => Py.Ret tt
        | Some e => Py.Halt (FailJson (ErrRest e))
        end,
        Py.MState w1 (Py.changed s) (Py.calls s ++ [Rest (RPatchIgroup uuid body)]))) /\
    (validate_modify false (Some m) s0 = (Py.Ret tt, s0) -> delete "initiators" m = ∅).
Proof.
  intros W conn uuid m s s0. split.
  - rewrite validate_modify_spec.
    destruct (bool_decide (rejected true m = ∅)) eqn:Hr; [|discriminate].
    apply bool_decide_eq_true_1 in Hr. intros _ body. split; [|split].
    + subst body. rewrite !patch_body_lookup. cbn.
      rewrite !lookup_delete_ne by discriminate. auto.
    + intros k [v Hk]. subst body. rewrite patch_body_lookup in Hk.
      destruct (decide (k = "portset")); [tauto|].
      destruct (decide (k = "name")); [tauto|].
      destruct (decide (k = "os_type")); [tauto|discriminate].
    + unfold modify_igroup_rest. rewrite Rename.rejected_none_supported by exact Hr.
      fold body. destruct (bool_decide (body = ∅)); [reflexivity|].
      unfold Py.bind, rest_api_send, Py.invoke, fail_on_error, fail_json, Py.halt, Py.ret.
      destruct (rest_send conn (RPatchIgroup uuid body) (Py.world s)) as [w1 [e|]];
        reflexivity.
  - rewrite validate_modify_spec.
    destruct (bool_decide (rejected false m = ∅)) eqn:Hr; [|discriminate].
    apply bool_decide_eq_true_1 in Hr. intros _. exact Hr.
Qed.

Lemma X7_witness :
  let m : dict := <["os_type" := PStr "linux"]> (<["initiators" := PList ["iqn.a"]]> ∅) in
  let conn := OntapStore.conn true (9, 9, 1)%Z in
  let s := Py.MState (world_with "ig1") true [] in
  let body := patch_body (delete "initiators" m) in
  (body !! "portset" = m !! "bind_portset" /\
   body !! "name" = m !! "name" /\
   body !! "os_type" = m !! "os_type") /\
  (forall k, is_Some (body !! k) -> k = "portset" \/ k = "name" \/ k = "os_type") /\
  modify_igroup_rest conn (Some (PStr "u-0")) (delete "initiators" m) s =
  if bool_decide (body = ∅) then (Py.Ret tt, s)
  else
    let '(w1, error) := rest_send conn (RPatchIgroup (Some (PStr "u-0")) body) (Py.world s) in
    (match error with
     | None => Py.Ret tt
     | Some e => Py.Halt (FailJson (ErrRest e))
     end,
     Py.MState w1 (Py.changed s)
       (Py.calls s ++ [Rest (RPatchIgroup (Some (PStr "u-0")) body)])).
Proof.
  intros m conn s body.
  destruct (X7_validated_modify_is_patched conn (Some (PStr "u-0")) m s s) as [Hrest _].
  apply Hrest. vm_compute. reflexivity.
Defined.





End IgroupExtras.

(** ** Calls of a kind, and what a step returns *)

Module PyLogs.
Section Logs.
Context {W C X : Type}.
Variable P : C -> Prop.
Local Open Scope list_scope.

Local Abbreviation M := (Py.M W C X).

(** [logs m Q]: from any state, every call that [m] appends to the log
    satisfies [P], and what [m] returns satisfies [Q]. *)
Definition logs {A} (m : M A) (Q : A -> Prop) : Prop :=
  forall s, exists sent,
    Py.calls (m s).2 = Py.calls s ++ sent /\
    Forall P sent /\
    (forall a, (m s).1 = Py.Ret a -> Q a).

Lemma logs_ret {A} (a : A) (Q : A -> Prop) : Q a -> logs (Py.ret a) Q.
Proof.
  intros Ha s. exists []. cbn. rewrite app_nil_r.
  split; [reflexivity|]. split; [constructor|]. now intros a' [= <-].
Qed.

Lemma logs_halt {A} (x : X) (Q : A -> Prop) : logs (Py.halt x) Q.
Proof.
  intros s. exists []. cbn. rewrite app_nil_r.
  split; [reflexivity|]. split; [constructor|]. discriminate.
Qed.

Lemma logs_bind {A B} (m : M A) (k : A -> M B) (Q : A -> Prop) (R : B -> Prop) :
  logs m Q -> (forall a, Q a -> logs (k a) R) -> logs (Py.bind m k) R.
Proof.
  intros Hm Hk s. unfold Py.bind.
  destruct (Hm s) as (sent1 & Hc1 & Hp1 & Hq1).
  destruct (m s) as [[a|x] s1]; cbn [fst snd] in *.
  - destruct (Hk a (Hq1 a eq_refl) s1) as (sent2 & Hc2 & Hp2 & Hq2).
    exists (sent1 ++ sent2). split; [|split].
    + rewrite Hc2, Hc1. now rewrite app_assoc.
    + now apply Forall_app_2.
    + exact Hq2.
  - exists sent1. split; [exact Hc1|]. split; [exact Hp1|]. discriminate.
Qed.

Lemma logs_weaken {A} (m : M A) (Q Q' : A -> Prop) :
  logs m Q -> (forall a, Q a -> Q' a) -> logs m Q'.
Proof.
  intros Hm HQ s. destruct (Hm s) as (sent & Hc & Hp & Hq).
  exists sent. split; [exact Hc|]. split; [exact Hp|]. intros a Ha. apply HQ, Hq, Ha.
Qed.

Lemma logs_helper {A} (f : bool -> A * bool) : logs (Py.helper f) (fun _ => True).
Proof.
  intros s. exists []. unfold Py.helper. destruct (f (Py.changed s)) as [a c].
  cbn. rewrite app_nil_r. split; [reflexivity|]. split; [constructor|]. trivial.
Qed.

Lemma logs_get_changed : logs (@Py.get_changed W C X) (fun _ => True).
Proof.
  intros s. exists []. cbn. rewrite app_nil_r.
  split; [reflexivity|]. split; [constructor|]. trivial.
Qed.

Lemma logs_invoke {R} (c : C) (srv : W -> W * R) :
  P c -> logs (Py.invoke c srv) (fun _ => True).
Proof.
  intros Hc s. exists [c]. unfold Py.invoke. destruct (srv (Py.world s)) as [w r].
  cbn. split; [reflexivity|]. split; [repeat constructor; exact Hc|]. trivial.
Qed.

Lemma logs_for_each {A} (l : list A) (body : A -> M unit) :
  (forall x, logs (body x) (fun _ => True)) ->
  logs (Py.for_each l body) (fun _ => True).
Proof.
  intros Hbody. induction l as [|x l IH]; cbn [Py.for_each].
  - now apply logs_ret.
  - eapply logs_bind; [apply Hbody|]. intros _ _. exact IH.
Qed.
End Logs.
End PyLogs.

(** ** Further properties of [na_ontap_igroup]: the calls of a run *)

Module IgroupFrame.
Import Igroup PyLogs IgroupSteps IgroupDecision.
Local Open Scope list_scope.

Section Frame.
Context {W : Type}.
Variable P : call -> Prop.
Variable U : ModuleUtils.
Variable conn : Connection W.

Local Abbreviation logs := (PyLogs.logs (W := W) (X := outcome) P).

Lemma logs_fail_on_error error : logs (fail_on_error error) (fun _ => True).
Proof. destruct error; [apply logs_halt|now apply logs_ret]. Qed.

Lemma logs_server_invoke use_rest c :
  (use_rest = false -> P (Zapi c)) ->
  logs (server_invoke conn use_rest c) (fun _ => True).
Proof.
  intros Hc. unfold server_invoke. destruct use_rest; [apply logs_halt|].
  apply logs_invoke. now apply Hc.
Qed.

Lemma logs_rest_api_send c :
  P (Rest c) -> logs (rest_api_send conn c) (fun _ => True).
Proof. intros Hc. now apply logs_invoke. Qed.

Lemma logs_get_igroup_rest p n :
  P (Rest (RGetIgroups n (vserver p))) ->
  logs (get_igroup_rest U conn p n) (fun _ => True).
Proof.
  intros Hc. unfold get_igroup_rest.
  eapply logs_bind; [now apply logs_invoke|]. intros [response error] _.
  destruct (Utils.check_for_0_or_1_records U response error) as [igroup e].
  eapply logs_bind; [apply logs_fail_on_error|]. intros _ _.
  destruct igroup as [ig|]; [|now apply logs_ret].
  destruct (r_name ig), (r_uuid ig), (r_svm_name ig), (r_os_type ig), (r_protocol ig);
    try apply logs_halt.
  destruct (r_initiators ig) as [items|]; [|now apply logs_ret].
  destruct (mapM id items); [now apply logs_ret|apply logs_halt].
Qed.

Lemma logs_initiator_names l : logs (initiator_names l) (fun _ => True).
Proof.
  induction l as [|e l IH]; cbn [initiator_names]; [now apply logs_ret|].
  eapply logs_bind with (Q := fun _ => True).
  - unfold initiator_name.
    destruct (get_child_by_name e "initiator-name") as [c|]; [|apply logs_halt].
    destruct (get_children c), (get_content c);
      first [now apply logs_ret | apply logs_halt].
  - intros s _. eapply logs_bind; [exact IH|]. intros names _. now apply logs_ret.
Qed.

Lemma logs_get_igroup use_rest p n :
  (use_rest = false -> P (Zapi (ZIgroupGetIter n (vserver p)))) ->
  (use_rest = true -> P (Rest (RGetIgroups n (vserver p)))) ->
  logs (get_igroup U conn use_rest p n) (fun _ => True).
Proof.
  intros Hz Hr. unfold get_igroup.
  destruct use_rest eqn:Hu; [now apply logs_get_igroup_rest, Hr|].
  eapply logs_bind; [apply (logs_server_invoke false); exact Hz|].
  intros [result|error] _; [|apply logs_halt].
  eapply logs_bind with (Q := fun _ => True).
  - destruct (get_child_by_name result "num-records"); [|now apply logs_ret].
    destruct (get_child_content result "num-records") as [t|]; [|apply logs_halt].
    destruct (int t); [now apply logs_ret|apply logs_halt].
  - intros found _. destruct found; [|now apply logs_ret].
    destruct (get_child_by_name result "attributes-list") as [igroup_info|];
      [|apply logs_halt].
    destruct (get_child_by_name igroup_info "initiator-group-info") as [info|];
      [|apply logs_halt].
    eapply logs_bind with (Q := fun _ => True); [|intros; now apply logs_ret].
    destruct (get_child_by_name info "initiators") as [ch|]; [|now apply logs_ret].
    destruct (get_children ch) as [|e l]; [apply logs_halt|apply logs_initiator_names].
Qed.
End Frame.
End IgroupFrame.
